(** * High-risk pattern detection over claims data: a shallow embedding

    The development follows [risk_detector.py].  A pandas [DataFrame] is a
    schema (the list of column names) together with an ordered list of
    rows; a [RiskDetector] object is a record holding [data] and the
    [results] dictionary, and every method is a computation in a small
    state-and-exception monad, so that the mutations of [self.data] and
    [self.results] and the [KeyError]s pandas raises are explicit.

    Numbers.  pandas stores [Paid Amount] as binary floating point; here a
    float is an exact rational ([Q]) or NaN ([None]).  Rounding, overflow
    and infinities are outside the embedding.  The square root used by
    [Series.std] is a parameter of the development.

    Files.  [to_csv], [print] and the text report written by
    [generate_summary_report] produce no value that the detector reads
    back; they are left out. *)

From Stdlib Require Import List String Ascii Bool Arith ZArith QArith Lia.
From Stdlib Require Import Permutation Lqa DecimalString.
Import ListNotations.

Local Open Scope string_scope.
Local Open Scope list_scope.

(* ================================================================= *)
(** ** Data model *)

(** A [pd.Timestamp]: nanoseconds since the epoch. *)
Definition Timestamp := Z.

Definition ns_per_day : Z := 86400000000000%Z.

(** A cell of the spreadsheet as [pd.read_excel] delivers it. *)
Inductive Cell :=
| NA
| Str (s : string)
| Num (q : Q)
| Time (t : Timestamp).

(** One row of the table.  The fields are the columns the program names;
    [other] carries the cells of every further column of the sheet.  [P]
    is what a [Paid Amount] cell holds and [D] what a date cell holds:
    raw [Cell]s before cleaning, floats and timestamps after it.  Text
    columns hold a string or are null. *)
Record Row (P D : Type) := mkRow {
  claim_no : option string;        (* 'Claim #' *)
  vin : option string;             (* 'VIN' *)
  paid_amount : P;                 (* 'Paid Amount' *)
  selling_dealer : option string;  (* 'Selling Dealer' *)
  default_servicer : option string;(* 'Default Servicer' *)
  ro_date : D;                     (* 'RO Date' *)
  entry_date : D;                  (* 'Entry Date' *)
  vehicle : option string;         (* 'Vehicle' *)
  coverage : option string;        (* 'Coverage' *)
  brand : option string;           (* 'Brand' *)
  other : list (string * Cell)
}.

Arguments mkRow {P D}.
Arguments claim_no {P D}.
Arguments vin {P D}.
Arguments paid_amount {P D}.
Arguments selling_dealer {P D}.
Arguments default_servicer {P D}.
Arguments ro_date {P D}.
Arguments entry_date {P D}.
Arguments vehicle {P D}.
Arguments coverage {P D}.
Arguments brand {P D}.
Arguments other {P D}.

Definition RawRow := Row Cell Cell.

(** A claim: [Paid Amount] is a float ([None] is NaN), the dates are
    [Timestamp]s ([None] is NaT). *)
Definition Claim := Row (option Q) (option Timestamp).

(** A frame: the names of its columns and its rows.  The field of a row
    under a column the frame does not have is never read: an access by
    name fails before. *)
Record Frame (R : Type) := mkFrame {
  columns : list string;
  rows : list R
}.

Arguments mkFrame {R}.
Arguments columns {R}.
Arguments rows {R}.

Definition RawFrame := Frame RawRow.
Definition DataFrame := Frame Claim.

(** [pd.DataFrame()] *)
Definition empty_frame : DataFrame := mkFrame [] [].

Definition has_column {R} (c : string) (df : Frame R) : bool :=
  existsb (String.eqb c) (columns df).

(* ================================================================= *)
(** ** Floats: rationals with NaN *)

Definition float := option Q.

Definition Qltb (a b : Q) : bool := negb (Qle_bool b a).

(** [a > b], false when either side is NaN *)
Definition fgt (a b : float) : bool :=
  match a, b with
  | Some x, Some y => Qltb y x
  | _, _ => false
  end.

(** [a >= b], false when either side is NaN *)
Definition fge (a b : float) : bool :=
  match a, b with
  | Some x, Some y => Qle_bool y x
  | _, _ => false
  end.

Definition fadd (a b : float) : float :=
  match a, b with
  | Some x, Some y => Some (x + y)%Q
  | _, _ => None
  end.

Definition fmul (a b : float) : float :=
  match a, b with
  | Some x, Some y => Some (x * y)%Q
  | _, _ => None
  end.

(* ================================================================= *)
(** ** pandas primitives *)

Definition isnull {A} (x : option A) : bool :=
  match x with None => true | Some _ => false end.

Definition cell_isna (c : Cell) : bool :=
  match c with NA => true | _ => false end.

(** The non-null values of a series. *)
Fixpoint dropna_values {A} (l : list (option A)) : list A :=
  match l with
  | [] => []
  | None :: l' => dropna_values l'
  | Some x :: l' => x :: dropna_values l'
  end.

(** [Series.count()]: the number of non-null values *)
Definition count {A} (l : list (option A)) : nat := List.length (dropna_values l).

Fixpoint Qsum (l : list Q) : Q :=
  match l with
  | [] => 0%Q
  | x :: l' => (x + Qsum l')%Q
  end.

(** [Series.sum()]: nulls are skipped, the empty sum is 0 *)
Definition sum (l : list float) : Q := Qsum (dropna_values l).

(** [Series.mean()]: nulls are skipped, NaN when nothing is left *)
Definition mean (l : list float) : float :=
  match dropna_values l with
  | [] => None
  | x :: xs => Some (Qsum (x :: xs) / inject_Z (Z.of_nat (List.length (x :: xs))))%Q
  end.

Definition Qmax (a b : Q) : Q := if Qle_bool a b then b else a.

(** [Series.max()]: nulls are skipped, NaN when nothing is left *)
Definition max (l : list float) : float :=
  match dropna_values l with
  | [] => None
  | x :: xs => Some (fold_left Qmax xs x)
  end.

(** [cell == v] for a string [v]: a null equals nothing *)
Definition eqs (x : option string) (v : string) : bool :=
  match x with
  | Some x' => String.eqb x' v
  | None => false
  end.

(** [s.isin(values)]: a null is in no list of strings *)
Definition isin (x : option string) (values : list string) : bool :=
  match x with
  | Some v => existsb (String.eqb v) values
  | None => false
  end.

(** The distinct values of a list, in order of first appearance. *)
Fixpoint distinct (l : list string) : list string :=
  match l with
  | [] => []
  | x :: l' => x :: filter (fun y => negb (String.eqb x y)) (distinct l')
  end.

(** [Series.nunique()]: the number of distinct non-null values *)
Definition nunique (l : list (option string)) : nat :=
  List.length (distinct (dropna_values l)).

(** Insertion sort, stable: an element goes in front of the first one
    that exceeds it strictly. *)
Fixpoint insert_by {A} (le : A -> A -> bool) (x : A) (l : list A) : list A :=
  match l with
  | [] => [x]
  | y :: l' => if le y x then y :: insert_by le x l' else x :: y :: l'
  end.

Definition sort_by {A} (le : A -> A -> bool) (l : list A) : list A :=
  fold_left (fun acc x => insert_by le x acc) l [].

(** Bucketing of [groupby]: the row joins the bucket of its key, a new
    key opens a bucket. *)
Fixpoint bucket_add {A} (k : string) (r : A) (gs : list (string * list A))
  : list (string * list A) :=
  match gs with
  | [] => [(k, [r])]
  | (k', rs) :: gs' =>
      if String.eqb k k' then (k', rs ++ [r]) :: gs'
      else (k', rs) :: bucket_add k r gs'
  end.

Definition buckets {A} (key : A -> option string) (l : list A)
  : list (string * list A) :=
  fold_left (fun gs r => match key r with
                         | Some k => bucket_add k r gs
                         | None => gs            (* dropna=True *)
                         end) l [].

(** [groupby(col)]: rows with a null key belong to no group
    ([dropna=True]); the groups come in ascending key order
    ([sort=True]); inside a group the rows keep their order. *)
Definition groupby {A} (key : A -> option string) (l : list A)
  : list (string * list A) :=
  sort_by (fun g1 g2 => String.leb (fst g1) (fst g2)) (buckets key l).

(** [str.split(sep)] of Python, for a one-character separator. *)
Fixpoint split (sep : ascii) (s : string) : list string :=
  match s with
  | EmptyString => [EmptyString]
  | String c s' =>
      if Ascii.eqb c sep then EmptyString :: split sep s'
      else match split sep s' with
           | w :: ws => String c w :: ws
           | [] => [String c EmptyString]
           end
  end.

(** [sort_values(col)] on a datetime column: ascending, NaT last.  Rows
    with equal dates are left in their order; nothing the program reads
    from the sorted frame depends on how ties are placed. *)
Definition date_le (a b : option Timestamp) : bool :=
  match a, b with
  | Some x, Some y => (x <=? y)%Z
  | Some _, None => true
  | None, Some _ => false
  | None, None => true
  end.

(* ================================================================= *)
(** ** Columns *)

(** A column read as a series, [df[col]]: its key in the frame and the
    field of the row that holds its cells. *)
Record Column (T : Type) := mkColumn {
  col_name : string;
  col_get : Claim -> T
}.

Arguments mkColumn {T}.
Arguments col_name {T}.
Arguments col_get {T}.

Definition VIN : Column (option string) := mkColumn "VIN" vin.
Definition PaidAmount : Column float := mkColumn "Paid Amount" paid_amount.
Definition SellingDealer : Column (option string) :=
  mkColumn "Selling Dealer" selling_dealer.

(** [df[mask]]: the rows that satisfy the mask, in order, under the same
    columns. *)
Definition select (mask : Claim -> bool) (df : DataFrame) : DataFrame :=
  mkFrame (columns df) (filter mask (rows df)).

(* ================================================================= *)
(** ** The detector object and its monad *)

Inductive Exn :=
| KeyError (missing : list string)   (* a column that is not in the frame *)
| NotLoaded                          (* [self.data] is still [None] *)
| SystemExit.                        (* [sys.exit(1)] of [load_data] *)

Inductive outcome (A : Type) :=
| Ok (a : A)
| Raise (e : Exn).

Arguments Ok {A}.
Arguments Raise {A}.

(** A row of [dealer_stats]. *)
Module DealerStats.
Record t := mk {
  dealer : string;          (* 'Selling Dealer' *)
  claim_count : nat;
  total_paid : Q;
  avg_paid : float
}.
End DealerStats.

(** A row of [luxury_stats] or of [coverage_stats]. *)
Module GroupStats.
Record t := mk {
  key : string;             (* 'Brand' or 'Coverage' *)
  claim_count : nat;
  total_paid : Q;
  avg_paid : float;
  max_paid : float
}.
End GroupStats.

(** A number in the summary: a count or an amount. *)
Inductive Value :=
| IntV (n : nat)
| FloatV (q : Q).

(** The dictionary [generate_summary_report] returns; [risk_patterns]
    keeps the order in which its keys are added. *)
Module Summary.
Record t := mk {
  total_claims : nat;
  total_paid : Q;
  avg_claim_amount : float;
  max_claim_amount : float;
  unique_vins : nat;
  unique_dealers : nat;
  risk_patterns : list (string * list (string * Value))
}.
End Summary.

(** [self.results]: a key is absent until its detector has stored a
    finding. *)
Record Results := mkResults {
  multiple_claims_per_vin : option DataFrame;
  high_dollar_claims : option DataFrame;
  multiple_dealers_per_vin : option DataFrame;
  repeated_claims_timeframe : option DataFrame;
  high_claims_per_dealer : option (list DealerStats.t * DataFrame);
  luxury_vehicle_patterns : option (list GroupStats.t * DataFrame);
  coverage_type_patterns : option (list GroupStats.t)
}.

Definition no_results : Results :=
  mkResults None None None None None None None.

Record RiskDetector := mkDetector {
  file_path : string;
  data : option DataFrame;
  results : Results
}.

(** [RiskDetector(file_path)] *)
Definition init (path : string) : RiskDetector :=
  mkDetector path None no_results.

(** A method of the object: it ends with a value or with an exception,
    and in both cases leaves the object in some state; what a method
    wrote before it raised stays written. *)
Definition M (A : Type) := RiskDetector -> outcome A * RiskDetector.

Definition ret {A} (a : A) : M A := fun s => (Ok a, s).

Definition raise {A} (e : Exn) : M A := fun s => (Raise e, s).

Definition bind {A B} (m : M A) (k : A -> M B) : M B :=
  fun s => match m s with
           | (Ok a, s') => k a s'
           | (Raise e, s') => (Raise e, s')
           end.

Notation "x <- m ;; k" := (bind m (fun x => k))
  (at level 61, m at next level, right associativity).
Notation "m ;;; k" := (bind m (fun _ => k))
  (at level 61, right associativity).

(** [self.data], which must have been loaded *)
Definition get_data : M DataFrame :=
  fun s => match data s with
           | Some df => (Ok df, s)
           | None => (Raise NotLoaded, s)
           end.

Definition set_data (df : DataFrame) : M unit :=
  fun s => (Ok tt, mkDetector (file_path s) (Some df) (results s)).

Definition get_results : M Results := fun s => (Ok (results s), s).

Definition update_results (f : Results -> Results) : M unit :=
  fun s => (Ok tt, mkDetector (file_path s) (data s) (f (results s))).

(** The columns among [cs] that the frame lacks. *)
Definition missing_columns (cs : list string) (df : DataFrame) : list string :=
  filter (fun c => negb (has_column c df)) cs.

(** Access to columns by name: pandas raises [KeyError] for the ones
    that are not there. *)
Definition require (cs : list string) (df : DataFrame) : M unit :=
  match missing_columns cs df with
  | [] => ret tt
  | miss => raise (KeyError miss)
  end.

(** [df[col]] *)
Definition getitem {T} (c : Column T) (df : DataFrame) : M (list T) :=
  require [col_name c] df ;;;
  ret (map (col_get c) (rows df)).

Definition store_multiple_claims_per_vin (v : DataFrame) (r : Results) :=
  mkResults (Some v) (high_dollar_claims r) (multiple_dealers_per_vin r)
    (repeated_claims_timeframe r) (high_claims_per_dealer r)
    (luxury_vehicle_patterns r) (coverage_type_patterns r).

Definition store_high_dollar_claims (v : DataFrame) (r : Results) :=
  mkResults (multiple_claims_per_vin r) (Some v) (multiple_dealers_per_vin r)
    (repeated_claims_timeframe r) (high_claims_per_dealer r)
    (luxury_vehicle_patterns r) (coverage_type_patterns r).

Definition store_multiple_dealers_per_vin (v : DataFrame) (r : Results) :=
  mkResults (multiple_claims_per_vin r) (high_dollar_claims r) (Some v)
    (repeated_claims_timeframe r) (high_claims_per_dealer r)
    (luxury_vehicle_patterns r) (coverage_type_patterns r).

Definition store_repeated_claims_timeframe (v : DataFrame) (r : Results) :=
  mkResults (multiple_claims_per_vin r) (high_dollar_claims r)
    (multiple_dealers_per_vin r) (Some v) (high_claims_per_dealer r)
    (luxury_vehicle_patterns r) (coverage_type_patterns r).

Definition store_high_claims_per_dealer
  (v : list DealerStats.t * DataFrame) (r : Results) :=
  mkResults (multiple_claims_per_vin r) (high_dollar_claims r)
    (multiple_dealers_per_vin r) (repeated_claims_timeframe r) (Some v)
    (luxury_vehicle_patterns r) (coverage_type_patterns r).

Definition store_luxury_vehicle_patterns
  (v : list GroupStats.t * DataFrame) (r : Results) :=
  mkResults (multiple_claims_per_vin r) (high_dollar_claims r)
    (multiple_dealers_per_vin r) (repeated_claims_timeframe r)
    (high_claims_per_dealer r) (Some v) (coverage_type_patterns r).

Definition store_coverage_type_patterns (v : list GroupStats.t) (r : Results) :=
  mkResults (multiple_claims_per_vin r) (high_dollar_claims r)
    (multiple_dealers_per_vin r) (repeated_claims_timeframe r)
    (high_claims_per_dealer r) (luxury_vehicle_patterns r) (Some v).

(* ================================================================= *)
(** ** Cleaning *)

Fixpoint assoc {A} (k : string) (l : list (string * A)) : option A :=
  match l with
  | [] => None
  | (k', v) :: l' => if String.eqb k k' then Some v else assoc k l'
  end.

(** Whether the cell of row [r] under column [c] is null. *)
Definition raw_isna (c : string) (r : RawRow) : bool :=
  if c =? "Claim #" then isnull (claim_no r)
  else if c =? "VIN" then isnull (vin r)
  else if c =? "Paid Amount" then cell_isna (paid_amount r)
  else if c =? "Selling Dealer" then isnull (selling_dealer r)
  else if c =? "Default Servicer" then isnull (default_servicer r)
  else if c =? "RO Date" then cell_isna (ro_date r)
  else if c =? "Entry Date" then cell_isna (entry_date r)
  else if c =? "Vehicle" then isnull (vehicle r)
  else if c =? "Coverage" then isnull (coverage r)
  else if c =? "Brand" then isnull (brand r)
  else match assoc c (other r) with
       | Some x => cell_isna x
       | None => true
       end.

(** A row that is null under every column of the frame. *)
Definition all_na (cols : list string) (r : RawRow) : bool :=
  forallb (fun c => raw_isna c r) cols.

(** [df.dropna(how='all')] *)
Definition dropna_all (raw : RawFrame) : RawFrame :=
  mkFrame (columns raw) (filter (fun r => negb (all_na (columns raw) r)) (rows raw)).

Definition fill {A} (d : A) (x : option A) : option A :=
  match x with
  | Some v => Some v
  | None => Some d
  end.

(* ================================================================= *)
(** ** A small table *)

Definition day (n : Z) : Timestamp := (n * ns_per_day)%Z.

Definition sample_columns : list string :=
  ["Claim #"; "VIN"; "Paid Amount"; "Selling Dealer"; "Default Servicer";
   "RO Date"; "Entry Date"; "Vehicle"; "Coverage"].

Definition claim (id v : option string) (p : float) (dealer : option string)
  (ro : option Timestamp) (veh cov : option string) : Claim :=
  mkRow id v p dealer (Some "Unknown") ro None veh cov None [].

(** Three claims of VIN X five days apart, one claim without VIN, one
    claim of VIN A without date and with a doubled blank in the vehicle. *)
Definition sample_table : DataFrame :=
  mkFrame sample_columns
    [claim (Some "1") (Some "X") (Some 100%Q) (Some "D1") (Some (day 1))
       (Some "2020 BMW X5") (Some "Gold");
     claim (Some "2") (Some "X") (Some 5000%Q) (Some "D2") (Some (day 6))
       (Some "2020 BMW X5") (Some "Gold");
     claim (Some "3") (Some "X") (Some 150%Q) (Some "D1") (Some (day 11))
       (Some "2020 BMW X5") None;
     claim (Some "4") None (Some 150%Q) (Some "D1") (Some (day 11))
       (Some "2019 AUDI A4") (Some "Silver");
     claim (Some "5") (Some "A") (Some 50%Q) (Some "D3") None
       (Some "2019  AUDI A4") (Some "Silver")].

Definition no_vin_claim : Claim :=
  claim (Some "4") None (Some 150%Q) (Some "D1") (Some (day 11))
    (Some "2019 AUDI A4") (Some "Silver").

Definition sample_detector : RiskDetector :=
  mkDetector "claims.xlsx" (Some sample_table) no_results.

(** The empty table under the columns of the input. *)
Definition empty_table : DataFrame := mkFrame sample_columns [].

Definition empty_detector : RiskDetector :=
  mkDetector "claims.xlsx" (Some empty_table) no_results.

(** A square root on rationals: the integer root of the integer part. *)
Definition sample_sqrt (q : Q) : Q := inject_Z (Z.sqrt (Qnum q / Z.pos (Qden q))).

(** Parsers for the examples: a cell parses as a date when it holds a
    timestamp and as a number when it holds a number. *)
Definition sample_to_datetime (column : list Cell) (c : Cell) : option Timestamp :=
  match c with
  | Time t => Some t
  | _ => None
  end.

Definition sample_to_numeric (c : Cell) : float :=
  match c with
  | Num q => Some q
  | _ => None
  end.

Definition raw_row (id v : option string) (p : Cell) (dealer : option string)
  (ro : Cell) (notes : list (string * Cell)) : RawRow :=
  mkRow id v p dealer None ro NA None None None notes.

(** A sheet with a clean row, a row whose amount and date do not parse
    and whose dealer is missing, and a row without any value. *)
Definition raw_sample : RawFrame :=
  mkFrame (sample_columns ++ ["Notes"])
    [raw_row (Some "1") (Some "X") (Num 100%Q) (Some "D1") (Time (day 1))
       [("Notes", NA)];
     raw_row (Some "2") (Some "Y") (Str "n/a") None (Str "soon")
       [("Notes", Str "call back")];
     raw_row None None NA None NA [("Notes", NA)]].


Definition sample_read_excel (path : string) : option RawFrame :=
  if path =? "claims.xlsx" then Some raw_sample else None.

(** A table without the [RO Date] column, each VIN with one claim. *)
Definition undated_table : DataFrame :=
  mkFrame ["Claim #"; "VIN"; "Paid Amount"; "Selling Dealer"]
    [claim (Some "1") (Some "X") (Some 100%Q) (Some "D1") None None None;
     claim (Some "2") (Some "Y") (Some 200%Q) (Some "D1") None None None].

Definition undated_detector : RiskDetector :=
  mkDetector "claims.xlsx" (Some undated_table) no_results.

(** A table without the [RO Date] column in which VIN X has two claims. *)
Definition undated_repeat_table : DataFrame :=
  mkFrame ["Claim #"; "VIN"; "Paid Amount"; "Selling Dealer"]
    [claim (Some "1") (Some "X") (Some 100%Q) (Some "D1") None None None;
     claim (Some "2") (Some "X") (Some 200%Q) (Some "D1") None None None].

Definition undated_repeat_detector : RiskDetector :=
  mkDetector "claims.xlsx" (Some undated_repeat_table) no_results.

(** A detector whose table has no column at all. *)
Definition bare_detector : RiskDetector :=
  mkDetector "claims.xlsx" (Some empty_frame) no_results.

(** A table with one claim. *)
Definition single_claim_table : DataFrame :=
  mkFrame sample_columns
    [claim (Some "1") (Some "X") (Some 100%Q) (Some "D1") (Some (day 1))
       (Some "2020 BMW X5") (Some "Gold")].

Definition single_claim_detector : RiskDetector :=
  mkDetector "claims.xlsx" (Some single_claim_table) no_results.



(* ================================================================= *)
(** ** Arguments of the command line *)

(** The namespace [argparse] returns in [run_risk_detection.main]. *)
Module CliArgs.
Record t := mk {
  file : string;
  output : string;
  no_viz : bool;
  no_html : bool;
  open_report : bool;
  vin_threshold : Z;
  dollar_threshold : Q;
  days_threshold : Z;
  dealer_count_threshold : Z;
  dealer_amount_multiplier : Q
}.
End CliArgs.

(** The namespace [argparse] returns in [detect_high_risk.main]. *)
Module DetectArgs.
Record t := mk {
  file : string;
  output : string;
  no_viz : bool;
  no_html : bool
}.
End DetectArgs.


Definition strict_args : CliArgs.t :=
  CliArgs.mk "claims.xlsx" "out" false true true 5 3 7 10 (5 # 2).

Definition sample_env : list (string * string) :=
  [("HOME", "/root"); ("VIN_THRESHOLD", "9")].

(** [str] on integers. *)
Definition sample_str_int (z : Z) : string := NilZero.string_of_int (Z.to_int z).

(** A stand-in for [str] on floats: the integer part and one decimal. *)
Definition sample_str_float (q : Q) : string :=
  let n := Qnum q in
  let d := Z.pos (Qden q) in
  (sample_str_int (n / d) ++ "." ++ sample_str_int (10 * (n mod d) / d))%string.

(** A parser for the options of [detect_high_risk.main]. *)
Fixpoint sample_parse_from (argv : list string) (acc : DetectArgs.t)
  : option DetectArgs.t :=
  match argv with
  | [] => Some acc
  | opt :: rest =>
      if (opt =? "--no-viz")%string then
        sample_parse_from rest
          (DetectArgs.mk (DetectArgs.file acc) (DetectArgs.output acc) true
             (DetectArgs.no_html acc))
      else if (opt =? "--no-html")%string then
        sample_parse_from rest
          (DetectArgs.mk (DetectArgs.file acc) (DetectArgs.output acc)
             (DetectArgs.no_viz acc) true)
      else
        match rest with
        | [] => None
        | v :: rest' =>
            if ((opt =? "--file") || (opt =? "-f"))%string then
              sample_parse_from rest'
                (DetectArgs.mk v (DetectArgs.output acc) (DetectArgs.no_viz acc)
                   (DetectArgs.no_html acc))
            else if ((opt =? "--output") || (opt =? "-o"))%string then
              sample_parse_from rest'
                (DetectArgs.mk (DetectArgs.file acc) v (DetectArgs.no_viz acc)
                   (DetectArgs.no_html acc))
            else None
        end
  end.

Definition sample_parse_detect_args (argv : list string) : option DetectArgs.t :=
  sample_parse_from argv
    (DetectArgs.mk "Ascension Claims Inception 8.7.25.xlsx" "risk_detection_results"
       false false).


Section Detector.

(** [pd.to_datetime(column, errors='coerce')] at one cell of the column:
    the timestamp, or NaT where the cell does not parse.  The format is
    inferred from the column, which is the first argument. *)
Variable to_datetime : list Cell -> Cell -> option Timestamp.

(** [pd.to_numeric(column, errors='coerce')] at one cell: the number, or
    NaN where the cell does not parse. *)
Variable to_numeric : Cell -> float.

(** [pd.read_excel(path)]; [None] when it raises. *)
Variable read_excel : string -> option RawFrame.

(** The square root of floats, as [Series.std] takes it. *)
Variable sqrt : Q -> Q.

(** A proof depends on the parameters its statement names and on no
    others. *)
Set Default Proof Using "Type".

(** [_clean_data]: empty rows go; the date columns and [Paid Amount] are
    converted when the frame has them; [fillna] fills the three columns
    of its dictionary that the frame has and passes over the others. *)
Definition _clean_data (raw : RawFrame) : DataFrame :=
  let df := dropna_all raw in
  let ro := map ro_date (rows df) in
  let entry := map entry_date (rows df) in
  mkFrame (columns df)
    (map (fun r =>
            mkRow (claim_no r) (vin r)
              (if has_column "Paid Amount" df
               then fill 0%Q (to_numeric (paid_amount r)) else None)
              (if has_column "Selling Dealer" df
               then fill "Unknown" (selling_dealer r) else selling_dealer r)
              (if has_column "Default Servicer" df
               then fill "Unknown" (default_servicer r) else default_servicer r)
              (if has_column "RO Date" df
               then to_datetime ro (ro_date r) else None)
              (if has_column "Entry Date" df
               then to_datetime entry (entry_date r) else None)
              (vehicle r) (coverage r) (brand r) (other r))
         (rows df)).

(** [load_data]: any exception ends the process. *)
Definition load_data : M unit :=
  fun s => match read_excel (file_path s) with
           | Some raw =>
               (Ok tt, mkDetector (file_path s) (Some (_clean_data raw)) (results s))
           | None => (Raise SystemExit, s)
           end.

(* ================================================================= *)
(** ** Multiple claims per VIN *)

(** [self.data.groupby('VIN').size().reset_index(name='claim_count')] *)
Definition vin_counts (df : DataFrame) : list (string * nat) :=
  map (fun g => (fst g, List.length (snd g))) (groupby vin (rows df)).

Definition high_claim_vins (threshold : Z) (df : DataFrame) : list (string * nat) :=
  filter (fun vc => (threshold <=? Z.of_nat (snd vc))%Z) (vin_counts df).

Definition detect_multiple_claims_per_vin (threshold : Z) : M DataFrame :=
  df <- get_data ;;
  require ["VIN"] df ;;;
  let high := high_claim_vins threshold df in
  if (0 <? List.length high)%nat then
    let result := select (fun r => isin (vin r) (map fst high)) df in
    update_results (store_multiple_claims_per_vin result) ;;;
    ret result
  else ret empty_frame.

(* ================================================================= *)
(** ** High dollar claims *)

(** [Series.std()]: sample standard deviation of the non-null values,
    NaN when fewer than two are left. *)
Definition std (l : list float) : float :=
  match mean l with
  | None => None
  | Some m =>
      let xs := dropna_values l in
      if (List.length xs <=? 1)%nat then None
      else Some (sqrt (Qsum (map (fun x => (x - m) * (x - m)) xs)
                       / inject_Z (Z.of_nat (List.length xs - 1))))%Q
  end.

(** [mean_amount + (std_dev_threshold * std_dev)] *)
Definition dollar_threshold (std_dev_threshold : Q) (df : DataFrame) : float :=
  let paid := map paid_amount (rows df) in
  fadd (mean paid) (fmul (Some std_dev_threshold) (std paid)).

Definition detect_high_dollar_claims (std_dev_threshold : Q) : M DataFrame :=
  df <- get_data ;;
  require ["Paid Amount"] df ;;;
  let threshold := dollar_threshold std_dev_threshold df in
  let high_dollar := select (fun r => fgt (paid_amount r) threshold) df in
  if (0 <? List.length (rows high_dollar))%nat then
    update_results (store_high_dollar_claims high_dollar) ;;;
    ret high_dollar
  else ret empty_frame.

(* ================================================================= *)
(** ** Multiple dealers per VIN *)

(** [groupby('VIN')['Selling Dealer'].nunique().reset_index(name='dealer_count')] *)
Definition vin_dealer_counts (df : DataFrame) : list (string * nat) :=
  map (fun g => (fst g, nunique (map selling_dealer (snd g))))
      (groupby vin (rows df)).

Definition multi_dealer_vins (df : DataFrame) : list (string * nat) :=
  filter (fun vc => (1 <? snd vc)%nat) (vin_dealer_counts df).

Definition detect_multiple_dealers_per_vin : M DataFrame :=
  df <- get_data ;;
  require ["VIN"] df ;;;
  require ["Selling Dealer"] df ;;;
  let multi := multi_dealer_vins df in
  if (0 <? List.length multi)%nat then
    let result := select (fun r => isin (vin r) (map fst multi)) df in
    update_results (store_multiple_dealers_per_vin result) ;;;
    ret result
  else ret empty_frame.

(* ================================================================= *)
(** ** Repeated claims within a timeframe *)

(** [self.data[self.data['VIN'] == vin].sort_values('RO Date')] *)
Definition vin_claims (v : string) (df : DataFrame) : list Claim :=
  sort_by (fun a b => date_le (ro_date a) (ro_date b))
    (filter (fun r => eqs (vin r) v) (rows df)).

(** The loop over consecutive claims: a pair counts when both dates are
    [Timestamp]s and [(next_date - current_date).days] is within the
    threshold; the first such pair ends the loop. *)
Fixpoint rapid_pair (days_threshold : Z) (dates : list (option Timestamp)) : bool :=
  match dates with
  | [] => false
  | current_date :: rest =>
      match rest with
      | [] => false
      | next_date :: _ =>
          match current_date, next_date with
          | Some c, Some n =>
              if ((n - c) / ns_per_day <=? days_threshold)%Z then true
              else rapid_pair days_threshold rest
          | _, _ => rapid_pair days_threshold rest
          end
      end
  end.

Definition multi_claim_vins (df : DataFrame) : list string :=
  map fst (filter (fun vc => (1 <? snd vc)%nat) (vin_counts df)).

Definition rapid_claim_vins (days_threshold : Z) (df : DataFrame) : list string :=
  filter (fun v => rapid_pair days_threshold (map ro_date (vin_claims v df)))
         (multi_claim_vins df).

(** [RO Date] is first read inside the loop, so a frame without it fails
    only when some VIN has several claims. *)
Definition detect_repeated_claims_timeframe (days_threshold : Z) : M DataFrame :=
  df <- get_data ;;
  require ["VIN"] df ;;;
  match multi_claim_vins df with
  | [] => ret empty_frame
  | _ :: _ =>
      require ["RO Date"] df ;;;
      let rapid := rapid_claim_vins days_threshold df in
      match rapid with
      | [] => ret empty_frame
      | _ :: _ =>
          let result := select (fun r => isin (vin r) rapid) df in
          update_results (store_repeated_claims_timeframe result) ;;;
          ret result
      end
  end.

(* ================================================================= *)
(** ** High claims per dealer *)

(** [groupby('Selling Dealer').agg(claim_count=('Claim #', 'count'),
    total_paid=('Paid Amount', 'sum'), avg_paid=('Paid Amount', 'mean'))] *)
Definition dealer_stats (df : DataFrame) : list DealerStats.t :=
  map (fun g => DealerStats.mk (fst g)
                  (count (map claim_no (snd g)))
                  (sum (map paid_amount (snd g)))
                  (mean (map paid_amount (snd g))))
      (groupby selling_dealer (rows df)).

Definition overall_avg (df : DataFrame) : float :=
  mean (map paid_amount (rows df)).

Definition high_risk_dealers (count_threshold : Z) (amount_threshold_multiplier : Q)
  (df : DataFrame) : list DealerStats.t :=
  filter (fun d =>
            (count_threshold <=? Z.of_nat (DealerStats.claim_count d))%Z
            || fge (DealerStats.avg_paid d)
                   (fmul (overall_avg df) (Some amount_threshold_multiplier)))
         (dealer_stats df).

(** The claims of the flagged dealers. *)
Definition high_risk_dealer_claims (count_threshold : Z)
  (amount_threshold_multiplier : Q) (df : DataFrame) : DataFrame :=
  select (fun r => isin (selling_dealer r)
                     (map DealerStats.dealer
                        (high_risk_dealers count_threshold
                           amount_threshold_multiplier df))) df.

Definition detect_high_claims_per_dealer (count_threshold : Z)
  (amount_threshold_multiplier : Q) : M (list DealerStats.t) :=
  df <- get_data ;;
  require ["Selling Dealer"] df ;;;
  require ["Claim #"; "Paid Amount"] df ;;;
  let high := high_risk_dealers count_threshold amount_threshold_multiplier df in
  if (0 <? List.length high)%nat then
    let result :=
      high_risk_dealer_claims count_threshold amount_threshold_multiplier df in
    update_results (store_high_claims_per_dealer (high, result)) ;;;
    ret high
  else ret [].

(* ================================================================= *)
(** ** Luxury vehicles *)

Definition luxury_brands : list string :=
  ["BENTLEY"; "FERRARI"; "LAMBORGHINI"; "MCLAREN"; "ROLLS-ROYCE"; "ASTON MARTIN";
   "PORSCHE"; "MERCEDES-BENZ"; "BMW"; "AUDI"; "MASERATI"; "LAND ROVER"; "TESLA"].

(** [.str.split(' ').str[1]]: the second piece, null when the vehicle is
    null or has no second piece. *)
Definition extract_brand (v : option string) : option string :=
  match v with
  | Some s => nth_error (split " "%char s) 1
  | None => None
  end.

Definition set_brand (b : option string) (r : Claim) : Claim :=
  mkRow (claim_no r) (vin r) (paid_amount r) (selling_dealer r)
    (default_servicer r) (ro_date r) (entry_date r) (vehicle r) (coverage r)
    b (other r).

(** [self.data['Brand'] = ...]: the column is overwritten, or added as
    the last one when the frame does not have it. *)
Definition assign_brand (df : DataFrame) : DataFrame :=
  mkFrame (if has_column "Brand" df then columns df else columns df ++ ["Brand"])
          (map (fun r => set_brand (extract_brand (vehicle r)) r) (rows df)).

(** The named aggregation over one group. *)
Definition agg_stats (g : string * list Claim) : GroupStats.t :=
  GroupStats.mk (fst g)
    (count (map claim_no (snd g)))
    (sum (map paid_amount (snd g)))
    (mean (map paid_amount (snd g)))
    (max (map paid_amount (snd g))).

(** [.sort_values('total_paid', ascending=False)]; groups with equal
    totals are left in key order, where pandas promises no order. *)
Definition sort_total_paid_desc (l : list GroupStats.t) : list GroupStats.t :=
  sort_by (fun a b => Qle_bool (GroupStats.total_paid b) (GroupStats.total_paid a)) l.

Definition luxury_claims (df : DataFrame) : DataFrame :=
  select (fun r => isin (brand r) luxury_brands) df.

Definition luxury_groups (df : DataFrame) : list (string * list Claim) :=
  groupby brand (rows (luxury_claims df)).

Definition luxury_stats (df : DataFrame) : list GroupStats.t :=
  sort_total_paid_desc (map agg_stats (luxury_groups df)).

Definition detect_luxury_vehicle_patterns : M (list GroupStats.t) :=
  df0 <- get_data ;;
  require ["Vehicle"] df0 ;;;
  set_data (assign_brand df0) ;;;
  df <- get_data ;;
  let luxury := luxury_claims df in
  if (0 <? List.length (rows luxury))%nat then
    require ["Claim #"; "Paid Amount"] luxury ;;;
    let stats := luxury_stats df in
    update_results (store_luxury_vehicle_patterns (stats, luxury)) ;;;
    ret stats
  else ret [].

(* ================================================================= *)
(** ** Coverage types *)

Definition coverage_groups (df : DataFrame) : list (string * list Claim) :=
  groupby coverage (rows df).

Definition coverage_stats (df : DataFrame) : list GroupStats.t :=
  sort_total_paid_desc (map agg_stats (coverage_groups df)).

Definition detect_coverage_type_patterns : M (list GroupStats.t) :=
  df <- get_data ;;
  require ["Coverage"] df ;;;
  require ["Claim #"; "Paid Amount"] df ;;;
  let stats := coverage_stats df in
  update_results (store_coverage_type_patterns stats) ;;;
  ret stats.

(* ================================================================= *)
(** ** Summary report *)

(** The entry of a detector that stored a frame of claims: the distinct
    VINs and the number of claims. *)
Definition vin_pattern (name : string) (found : option DataFrame)
  : M (list (string * list (string * Value))) :=
  match found with
  | Some f =>
      vins <- getitem VIN f ;;
      ret [(name, [("vins_flagged", IntV (nunique vins));
                   ("claims_flagged", IntV (List.length (rows f)))])]
  | None => ret []
  end.

Definition dollar_pattern (found : option DataFrame)
  : M (list (string * list (string * Value))) :=
  match found with
  | Some f =>
      paid <- getitem PaidAmount f ;;
      ret [("high_dollar_claims",
            [("claims_flagged", IntV (List.length (rows f)));
             ("total_amount", FloatV (sum paid))])]
  | None => ret []
  end.

Definition dealer_pattern (found : option (list DealerStats.t * DataFrame))
  : list (string * list (string * Value)) :=
  match found with
  | Some (stats, claims) =>
      [("high_claims_per_dealer",
        [("dealers_flagged", IntV (List.length stats));
         ("claims_flagged", IntV (List.length (rows claims)))])]
  | None => []
  end.

Definition luxury_pattern (found : option (list GroupStats.t * DataFrame))
  : list (string * list (string * Value)) :=
  match found with
  | Some (stats, claims) =>
      [("luxury_vehicle_patterns",
        [("brands_flagged", IntV (List.length stats));
         ("claims_flagged", IntV (List.length (rows claims)))])]
  | None => []
  end.

Definition coverage_pattern (found : option (list GroupStats.t))
  : list (string * list (string * Value)) :=
  match found with
  | Some stats =>
      [("coverage_type_patterns", [("coverage_types", IntV (List.length stats))])]
  | None => []
  end.

Definition generate_summary_report : M Summary.t :=
  df <- get_data ;;
  paid <- getitem PaidAmount df ;;
  vins <- getitem VIN df ;;
  dealers <- getitem SellingDealer df ;;
  res <- get_results ;;
  p1 <- vin_pattern "multiple_claims_per_vin" (multiple_claims_per_vin res) ;;
  p2 <- dollar_pattern (high_dollar_claims res) ;;
  p3 <- vin_pattern "multiple_dealers_per_vin" (multiple_dealers_per_vin res) ;;
  p4 <- vin_pattern "repeated_claims_timeframe" (repeated_claims_timeframe res) ;;
  ret (Summary.mk (List.length (rows df)) (sum paid) (mean paid) (max paid)
         (nunique vins) (nunique dealers)
         (p1 ++ p2 ++ p3 ++ p4
          ++ dealer_pattern (high_claims_per_dealer res)
          ++ luxury_pattern (luxury_vehicle_patterns res)
          ++ coverage_pattern (coverage_type_patterns res))).

(** [run_all_detections], every detector with its default parameters. *)
Definition run_all_detections : M Summary.t :=
  (fun s => match data s with
            | None => load_data s
            | Some _ => (Ok tt, s)
            end) ;;;
  detect_multiple_claims_per_vin 2 ;;;
  detect_high_dollar_claims 2 ;;;
  detect_multiple_dealers_per_vin ;;;
  detect_repeated_claims_timeframe 30 ;;;
  detect_high_claims_per_dealer 3 (3 # 2) ;;;
  detect_luxury_vehicle_patterns ;;;
  detect_coverage_type_patterns ;;;
  generate_summary_report.

(* ================================================================= *)
(** ** The command line *)

(** [str] of an integer and of a float. *)
Variable str_int : Z -> string.
Variable str_float : Q -> string.

(** [parser.parse_args()] of [detect_high_risk.main] on [sys.argv[1:]];
    [None] when [argparse] rejects the arguments and exits. *)
Variable parse_detect_args : list string -> option DetectArgs.t.

(** [os.environ[k] = v] *)
Definition setenv (k v : string) (env : list (string * string))
  : list (string * string) :=
  (k, v) :: filter (fun kv => negb (String.eqb (fst kv) k)) env.

(** The arguments [run_risk_detection.main] puts in [sys.argv] for
    [detect_high_risk.main]. *)
Definition detect_args (args : CliArgs.t) : list string :=
  ["--file"; CliArgs.file args; "--output"; CliArgs.output args]
  ++ (if CliArgs.no_viz args then ["--no-viz"] else [])
  ++ (if CliArgs.no_html args then ["--no-html"] else []).

(** [detect_high_risk.main]: a detector on the file, a complete run with
    [run_all_detections()].  The value is the summary and the detector
    the charts and the HTML report are then drawn from; an exception of
    the run ends the function.  The output directory, the charts and the
    report are files. *)
Definition detect_main (argv : list string) : outcome (Summary.t * RiskDetector) :=
  match parse_detect_args argv with
  | None => Raise SystemExit
  | Some args =>
      match run_all_detections (init (DetectArgs.file args)) with
      | (Ok summary, detector) => Ok (summary, detector)
      | (Raise e, _) => Raise e
      end
  end.

(** [run_risk_detection.main] after its own [parse_args]: the thresholds
    go to the environment, the other arguments to [detect_high_risk.main].
    The value is the environment and what [detect_high_risk.main] ends
    with. *)
Definition run_risk_detection_main (args : CliArgs.t) (env : list (string * string))
  : list (string * string) * outcome (Summary.t * RiskDetector) :=
  let env := setenv "VIN_THRESHOLD" (str_int (CliArgs.vin_threshold args)) env in
  let env := setenv "DOLLAR_THRESHOLD" (str_float (CliArgs.dollar_threshold args)) env in
  let env := setenv "DAYS_THRESHOLD" (str_int (CliArgs.days_threshold args)) env in
  let env := setenv "DEALER_COUNT_THRESHOLD"
               (str_int (CliArgs.dealer_count_threshold args)) env in
  let env := setenv "DEALER_AMOUNT_MULTIPLIER"
               (str_float (CliArgs.dealer_amount_multiplier args)) env in
  (env, detect_main (detect_args args)).

(* ================================================================= *)
(** ** Vocabulary of the properties *)

(** The rows whose cell under a text column is [k]. *)
Definition rows_with (key : Claim -> option string) (k : string) (l : list Claim)
  : list Claim :=
  filter (fun r => eqs (key r) k) l.

(** The rows a detector hands back; none when it raises. *)
Definition returned_rows (o : outcome DataFrame) : list Claim :=
  match o with
  | Ok f => rows f
  | Raise _ => []
  end.

(** Two neighbours of the list that both carry a date, the second at
    most [d] whole days after the first. *)
Definition near_pair (d : Z) (dates : list (option Timestamp)) : Prop :=
  exists i a b,
    nth_error dates i = Some (Some a) /\
    nth_error dates (S i) = Some (Some b) /\
    ((b - a) / ns_per_day <= d)%Z.

(** A list in the order [sort_values] gives: every element is in front
    of the later ones with respect to [le]. *)
Fixpoint sorted_by {A} (le : A -> A -> bool) (l : list A) : Prop :=
  match l with
  | [] => True
  | x :: l' => (forall y, In y l' -> le x y = true) /\ sorted_by le l'
  end.

(** The columns of the input, by name. *)
Definition schema : list string :=
  ["VIN"; "Paid Amount"; "Selling Dealer"; "RO Date"; "Claim #"; "Vehicle";
   "Coverage"; "Default Servicer"].

Definition has_schema (df : DataFrame) : bool :=
  forallb (fun c => has_column c df) schema.





(** Whether the character is in the string. *)
Fixpoint occurs (c : ascii) (s : string) : bool :=
  match s with
  | EmptyString => false
  | String c' s' => Ascii.eqb c' c || occurs c s'
  end.

(** The findings the summary reads a column of have that column. *)
Definition results_ok (res : Results) : Prop :=
  (forall f, multiple_claims_per_vin res = Some f -> has_column "VIN" f = true) /\
  (forall f, high_dollar_claims res = Some f -> has_column "Paid Amount" f = true) /\
  (forall f, multiple_dealers_per_vin res = Some f -> has_column "VIN" f = true) /\
  (forall f, repeated_claims_timeframe res = Some f -> has_column "VIN" f = true).

(** The keys of [self.results], in the order of the summary. *)
Definition present_keys (res : Results) : list string :=
  (if isnull (multiple_claims_per_vin res) then [] else ["multiple_claims_per_vin"])
  ++ (if isnull (high_dollar_claims res) then [] else ["high_dollar_claims"])
  ++ (if isnull (multiple_dealers_per_vin res) then []
      else ["multiple_dealers_per_vin"])
  ++ (if isnull (repeated_claims_timeframe res) then []
      else ["repeated_claims_timeframe"])
  ++ (if isnull (high_claims_per_dealer res) then [] else ["high_claims_per_dealer"])
  ++ (if isnull (luxury_vehicle_patterns res) then []
      else ["luxury_vehicle_patterns"])
  ++ (if isnull (coverage_type_patterns res) then [] else ["coverage_type_patterns"]).

(** A detector loaded with the table [df] whose findings are in order. *)
Definition ready (df : DataFrame) (s : RiskDetector) : Prop :=
  data s = Some df /\ results_ok (results s).

(** A method that takes no key out of [self.results]. *)
Definition keeps_findings {A} (m : M A) : Prop :=
  forall s, incl (present_keys (results s)) (present_keys (results (snd (m s)))).



(* ================================================================= *)
(** ** Lists, sorting and grouping *)

Lemma existsb_eqb_In (v : string) (l : list string) :
  existsb (String.eqb v) l = true <-> In v l.
Proof.
  rewrite existsb_exists. split.
  - intros [x [Hin Heq]]. apply String.eqb_eq in Heq. now subst.
  - intros Hin. exists v. split; [assumption | apply String.eqb_refl].
Qed.

Lemma isin_In (x : option string) (l : list string) :
  isin x l = true <-> exists v, x = Some v /\ In v l.
Proof.
  destruct x as [v|]; simpl.
  - rewrite existsb_eqb_In. split.
    + intros H. now exists v.
    + intros [w [Hw Hin]]. now inversion Hw.
  - split; [discriminate | intros [v [Hv _]]; discriminate].
Qed.

Lemma eqs_true (x : option string) (v : string) :
  eqs x v = true <-> x = Some v.
Proof.
  destruct x as [w|]; simpl.
  - rewrite String.eqb_eq. split; congruence.
  - split; discriminate.
Qed.

Lemma insert_by_perm {A} (le : A -> A -> bool) (x : A) (l : list A) :
  Permutation (insert_by le x l) (x :: l).
Proof.
  induction l as [|y l IH]; simpl.
  - apply Permutation_refl.
  - destruct (le y x).
    + rewrite IH. apply perm_swap.
    + apply Permutation_refl.
Qed.

Lemma fold_insert_perm {A} (le : A -> A -> bool) (l acc : list A) :
  Permutation (fold_left (fun acc x => insert_by le x acc) l acc) (acc ++ l).
Proof.
  revert acc. induction l as [|x l IH]; intros acc; simpl.
  - rewrite app_nil_r. apply Permutation_refl.
  - rewrite IH, insert_by_perm. apply Permutation_middle.
Qed.

Lemma sort_by_perm {A} (le : A -> A -> bool) (l : list A) :
  Permutation (sort_by le l) l.
Proof.
  unfold sort_by. apply (fold_insert_perm le l []).
Qed.

Lemma sort_by_In {A} (le : A -> A -> bool) (l : list A) (x : A) :
  In x (sort_by le l) <-> In x l.
Proof.
  split; apply Permutation_in;
    [apply sort_by_perm | apply Permutation_sym, sort_by_perm].
Qed.

Section Sorted.

Context {A : Type} (le : A -> A -> bool).
Hypothesis le_total : forall x y, le x y = true \/ le y x = true.
Hypothesis le_trans : forall x y z, le x y = true -> le y z = true -> le x z = true.

Lemma insert_by_sorted (x : A) (l : list A) :
  sorted_by le l -> sorted_by le (insert_by le x l).
Proof using le_total le_trans.
  induction l as [|y l IH]; simpl.
  - intros _. split; [intros y [] | exact I].
  - intros [Hy Hl]. destruct (le y x) eqn:E; simpl.
    + split.
      * intros z Hz.
        apply (Permutation_in _ (insert_by_perm le x l)) in Hz.
        destruct Hz as [<- | Hz]; [exact E | now apply Hy].
      * now apply IH.
    + assert (Hxy : le x y = true)
        by (destruct (le_total x y) as [H | H]; [exact H | congruence]).
      split.
      * intros z [<- | Hz]; [exact Hxy |].
        apply le_trans with y; [exact Hxy | now apply Hy].
      * now split.
Qed.

Lemma fold_insert_sorted (l acc : list A) :
  sorted_by le acc ->
  sorted_by le (fold_left (fun acc x => insert_by le x acc) l acc).
Proof using le_total le_trans.
  revert acc. induction l as [|x l IH]; intros acc Hacc; simpl.
  - exact Hacc.
  - apply IH. now apply insert_by_sorted.
Qed.

Lemma sort_by_sorted (l : list A) : sorted_by le (sort_by le l).
Proof using le_total le_trans.
  unfold sort_by. apply fold_insert_sorted. exact I.
Qed.

End Sorted.

Lemma bucket_add_keys {A} (k : string) (r : A) (gs : list (string * list A)) :
  map fst (bucket_add k r gs)
  = if existsb (String.eqb k) (map fst gs) then map fst gs else map fst gs ++ [k].
Proof.
  induction gs as [|[k' rs] gs IH]; simpl.
  - reflexivity.
  - destruct (String.eqb k k') eqn:E; simpl.
    + reflexivity.
    + rewrite IH. now destruct (existsb (String.eqb k) (map fst gs)).
Qed.

Lemma bucket_add_NoDup {A} (k : string) (r : A) (gs : list (string * list A)) :
  NoDup (map fst gs) -> NoDup (map fst (bucket_add k r gs)).
Proof.
  intros Hnd. rewrite bucket_add_keys.
  destruct (existsb (String.eqb k) (map fst gs)) eqn:E.
  - exact Hnd.
  - apply NoDup_app; [exact Hnd | repeat constructor; intros [] |].
    intros a Ha [<- | []]. apply existsb_eqb_In in Ha. congruence.
Qed.

(** Where a bucket of the new list comes from. *)
Lemma bucket_add_In {A} (k : string) (r : A) (gs : list (string * list A))
  (k' : string) (g' : list A) :
  NoDup (map fst gs) ->
  In (k', g') (bucket_add k r gs) <->
  (k' <> k /\ In (k', g') gs) \/
  (k' = k /\ ((exists g, In (k, g) gs /\ g' = g ++ [r]) \/
              (~ In k (map fst gs) /\ g' = [r]))).
Proof.
  induction gs as [|[k0 rs] gs IH]; simpl; intros Hnd.
  - split.
    + intros [H | []]. inversion H; subst. right. split; [reflexivity |].
      right. split; [intros [] | reflexivity].
    + intros [[_ []] | [-> [[g [[] _]] | [_ ->]]]]. now left.
  - apply NoDup_cons_iff in Hnd as [Hk0 Hnd]. specialize (IH Hnd).
    destruct (String.eqb k k0) eqn:E.
    + apply String.eqb_eq in E. subst k0. simpl. split.
      * intros [H | H].
        -- inversion H; subst. right. split; [reflexivity |]. left.
           exists rs. split; [now left | reflexivity].
        -- destruct (String.eqb_spec k' k) as [-> | Hne].
           ++ exfalso. apply Hk0. apply in_map_iff. now exists (k, g').
           ++ left. split; [exact Hne | now right].
      * intros [[Hne [H | H]] | [-> [[g [[H | H] ->]] | [Hn _]]]].
        -- inversion H; subst. congruence.
        -- now right.
        -- inversion H; subst. now left.
        -- exfalso. apply Hk0. apply in_map_iff. now exists (k, g).
        -- exfalso. apply Hn. now left.
    + assert (Hne0 : k <> k0) by (intros ->; rewrite String.eqb_refl in E; discriminate).
      simpl. rewrite IH. split.
      * intros [H | [[Hne H] | [-> [[g [H ->]] | [Hn ->]]]]].
        -- inversion H; subst. left. split; [congruence | now left].
        -- left. split; [exact Hne | now right].
        -- right. split; [reflexivity |]. left. exists g. split; [now right | reflexivity].
        -- right. split; [reflexivity |]. right. split; [| reflexivity].
           intros [H | H]; [congruence | contradiction].
      * intros [[Hne [H | H]] | [-> [[g [[H | H] ->]] | [Hn ->]]]].
        -- now left.
        -- right. left. now split.
        -- inversion H; subst. congruence.
        -- right. right. split; [reflexivity |]. left. now exists g.
        -- right. right. split; [reflexivity |]. right. split; [| reflexivity].
           intros H. apply Hn. now right.
Qed.

Lemma filter_snoc {A} (f : A -> bool) (l : list A) (x : A) :
  filter f (l ++ [x]) = filter f l ++ (if f x then [x] else []).
Proof.
  rewrite filter_app. reflexivity.
Qed.

(** The buckets after the rows [done] have been distributed: one per key
    that occurs, holding the rows of that key in their order. *)
Lemma buckets_fold_spec {A} (key : A -> option string) (l done : list A)
  (gs : list (string * list A)) :
  NoDup (map fst gs) ->
  (forall k g, In (k, g) gs <->
               g = filter (fun r => eqs (key r) k) done /\ g <> []) ->
  let gs' := fold_left (fun gs r => match key r with
                                    | Some k => bucket_add k r gs
                                    | None => gs
                                    end) l gs in
  NoDup (map fst gs') /\
  (forall k g, In (k, g) gs' <->
               g = filter (fun r => eqs (key r) k) (done ++ l) /\ g <> []).
Proof.
  revert done gs. induction l as [|r l IH]; intros done gs Hnd Hin; simpl.
  - rewrite app_nil_r. now split.
  - replace (done ++ r :: l) with ((done ++ [r]) ++ l)
      by (rewrite <- app_assoc; reflexivity).
    apply IH.
    + destruct (key r); [now apply bucket_add_NoDup | exact Hnd].
    + intros k g. rewrite filter_snoc.
      destruct (key r) as [k0|] eqn:Hk; simpl.
      * rewrite bucket_add_In by exact Hnd.
        destruct (String.eqb_spec k0 k) as [-> | Hne].
        -- split.
           ++ intros [[Hc _] | [_ [[g0 [H0 ->]] | [Hn ->]]]].
              ** congruence.
              ** apply Hin in H0 as [-> _]. split; [reflexivity |].
                 intros H. now apply app_eq_nil in H as [_ H].
              ** destruct (filter (fun r0 => eqs (key r0) k) done) as [|x xs] eqn:F.
                 --- split; [reflexivity | discriminate].
                 --- exfalso. apply Hn. apply in_map_iff.
                     exists (k, x :: xs). split; [reflexivity |].
                     apply Hin. split; [now rewrite F | discriminate].
           ++ intros [-> _]. right. split; [reflexivity |].
              destruct (filter (fun r0 => eqs (key r0) k) done) as [|x xs] eqn:F.
              ** right. split; [| reflexivity].
                 intros Hk0. apply in_map_iff in Hk0 as [[k1 g1] [E1 H1]].
                 simpl in E1. subst k1. apply Hin in H1 as [-> H1].
                 apply H1. exact F.
              ** left. exists (x :: xs). split; [| reflexivity].
                 apply Hin. split; [now rewrite F | discriminate].
        -- rewrite app_nil_r. rewrite <- Hin. split.
           ++ intros [[_ H] | [Hc _]]; [exact H | congruence].
           ++ intros H. left. split; [congruence | exact H].
      * rewrite app_nil_r. apply Hin.
Qed.

Lemma buckets_spec {A} (key : A -> option string) (l : list A) :
  NoDup (map fst (buckets key l)) /\
  (forall k g, In (k, g) (buckets key l) <->
               g = filter (fun r => eqs (key r) k) l /\ g <> []).
Proof.
  apply (buckets_fold_spec key l [] []).
  - constructor.
  - intros k g. simpl. split; [intros [] | intros [-> H]; now apply H].
Qed.

(** The groups of [groupby]: one for each key that occurs, made of the
    rows with that key and of no others. *)
Lemma groupby_In {A} (key : A -> option string) (l : list A) (k : string) (g : list A) :
  In (k, g) (groupby key l) <->
  g = filter (fun r => eqs (key r) k) l /\ g <> [].
Proof.
  unfold groupby. rewrite sort_by_In. apply buckets_spec.
Qed.

Lemma groupby_NoDup {A} (key : A -> option string) (l : list A) :
  NoDup (map fst (groupby key l)).
Proof.
  unfold groupby.
  eapply Permutation_NoDup; [| apply (proj1 (buckets_spec key l))].
  apply Permutation_map, Permutation_sym, sort_by_perm.
Qed.

Lemma groupby_key_In {A} (key : A -> option string) (l : list A) (k : string) :
  In k (map fst (groupby key l)) <-> exists r, In r l /\ key r = Some k.
Proof.
  rewrite in_map_iff. split.
  - intros [[k' g] [E H]]. simpl in E. subst k'. apply groupby_In in H as [-> H].
    destruct (filter (fun r => eqs (key r) k) l) as [|x xs] eqn:F; [congruence |].
    assert (Hx : In x (filter (fun r => eqs (key r) k) l)) by (rewrite F; now left).
    apply filter_In in Hx as [Hx Hk]. exists x. split; [exact Hx | now apply eqs_true].
  - intros [r [Hr Hk]]. exists (k, filter (fun r => eqs (key r) k) l).
    split; [reflexivity |]. apply groupby_In. split; [reflexivity |].
    intros F. assert (Hx : In r (filter (fun r => eqs (key r) k) l)).
    { apply filter_In. split; [exact Hr | now apply eqs_true]. }
    rewrite F in Hx. contradiction.
Qed.

(* ================================================================= *)
(** ** Running the methods *)

Lemma get_data_loaded (s : RiskDetector) (df : DataFrame) :
  data s = Some df -> get_data s = (Ok df, s).
Proof.
  intros H. unfold get_data. now rewrite H.
Qed.

Lemma require_present (cs : list string) (df : DataFrame) (s : RiskDetector) :
  forallb (fun c => has_column c df) cs = true ->
  require cs df s = (Ok tt, s).
Proof.
  intros H. unfold require, missing_columns.
  replace (filter (fun c => negb (has_column c df)) cs) with (@nil string).
  - reflexivity.
  - symmetry. induction cs as [|c cs IH]; simpl in *; [reflexivity |].
    apply andb_true_iff in H as [Hc Hcs]. rewrite Hc. simpl. now apply IH.
Qed.

Lemma require_one (c : string) (df : DataFrame) (s : RiskDetector) :
  require [c] df s
  = if has_column c df then (Ok tt, s) else (Raise (KeyError [c]), s).
Proof.
  unfold require, missing_columns. simpl. now destruct (has_column c df).
Qed.

Lemma bind_ok {A B} (m : M A) (k : A -> M B) (s s' : RiskDetector) (a : A) :
  m s = (Ok a, s') -> bind m k s = k a s'.
Proof.
  intros H. unfold bind. now rewrite H.
Qed.

Lemma bind_raise {A B} (m : M A) (k : A -> M B) (s s' : RiskDetector) (e : Exn) :
  m s = (Raise e, s') -> bind m k s = (Raise e, s').
Proof.
  intros H. unfold bind. now rewrite H.
Qed.

Lemma length_pos_nil {A} (l : list A) :
  (0 <? List.length l)%nat = false <-> l = [].
Proof.
  destruct l; cbn; split; intros H; try reflexivity; discriminate H.
Qed.

(* ================================================================= *)
(** ** Multiple claims per VIN *)

Lemma vin_counts_In (df : DataFrame) (v : string) (n : nat) :
  In (v, n) (vin_counts df) <->
  n = List.length (rows_with vin v (rows df)) /\ rows_with vin v (rows df) <> [].
Proof.
  unfold vin_counts, rows_with. rewrite in_map_iff. split.
  - intros [[k g] [E H]]. simpl in E. inversion E; subst.
    apply groupby_In in H as [-> H]. now split.
  - intros [-> H]. exists (v, filter (fun r => eqs (vin r) v) (rows df)).
    split; [reflexivity |]. now apply groupby_In.
Qed.

Lemma rows_with_nonempty (key : Claim -> option string) (r : Claim) (v : string)
  (l : list Claim) :
  In r l -> key r = Some v -> rows_with key v l <> [].
Proof.
  intros Hr Hv F.
  assert (H : In r (rows_with key v l)).
  { apply filter_In. split; [exact Hr | now apply eqs_true]. }
  rewrite F in H. contradiction.
Qed.

Lemma high_claim_vins_In (t : Z) (df : DataFrame) (v : string) :
  In v (map fst (high_claim_vins t df)) <->
  rows_with vin v (rows df) <> [] /\
  (t <= Z.of_nat (List.length (rows_with vin v (rows df))))%Z.
Proof.
  unfold high_claim_vins. rewrite in_map_iff. split.
  - intros [[k n] [E H]]. simpl in E. subst k.
    apply filter_In in H as [H Ht]. apply vin_counts_In in H as [-> H].
    simpl in Ht. apply Z.leb_le in Ht. now split.
  - intros [H Ht]. exists (v, List.length (rows_with vin v (rows df))).
    split; [reflexivity |]. apply filter_In. split.
    + now apply vin_counts_In.
    + simpl. now apply Z.leb_le.
Qed.

(** The mask of the detector is the count test, row by row. *)
Lemma multiple_claims_mask (t : Z) (df : DataFrame) (r : Claim) :
  In r (rows df) ->
  isin (vin r) (map fst (high_claim_vins t df))
  = match vin r with
    | Some v => (t <=? Z.of_nat (List.length (rows_with vin v (rows df))))%Z
    | None => false
    end.
Proof.
  intros Hr. destruct (vin r) as [v|] eqn:Hv; simpl; [| reflexivity].
  destruct (t <=? Z.of_nat (List.length (rows_with vin v (rows df))))%Z eqn:Ht.
  - apply existsb_eqb_In, high_claim_vins_In. split.
    + now apply rows_with_nonempty with r.
    + now apply Z.leb_le.
  - apply not_true_is_false. intros H.
    apply existsb_eqb_In, high_claim_vins_In in H as [_ H].
    apply Z.leb_le in H. congruence.
Qed.

Lemma filter_isin_nil (key : Claim -> option string) (l : list Claim) :
  filter (fun r => isin (key r) []) l = [].
Proof.
  induction l as [|r l IH]; simpl; [reflexivity |].
  destruct (key r); simpl; exact IH.
Qed.

(** What [detect_multiple_claims_per_vin] hands back, with or without
    flagged VINs. *)
Lemma detect_multiple_claims_per_vin_rows (s : RiskDetector) (df : DataFrame) (t : Z) :
  data s = Some df -> has_column "VIN" df = true ->
  exists result s',
    detect_multiple_claims_per_vin t s = (Ok result, s') /\
    data s' = data s /\
    rows result
    = filter (fun r => isin (vin r) (map fst (high_claim_vins t df))) (rows df).
Proof.
  intros Hd Hc. unfold detect_multiple_claims_per_vin.
  rewrite (bind_ok _ _ _ _ _ (get_data_loaded s df Hd)).
  unfold bind at 1. rewrite require_one, Hc.
  destruct (0 <? List.length (high_claim_vins t df))%nat eqn:E.
  - eexists; eexists. split; [reflexivity |]. split; reflexivity.
  - apply length_pos_nil in E. rewrite E. simpl.
    exists empty_frame, s. split; [reflexivity |]. split; [reflexivity |].
    simpl. now rewrite filter_isin_nil.
Qed.

(** C1.  On a table with a [VIN] column, [detect_multiple_claims_per_vin]
    with threshold [t] returns exactly the claims whose VIN has at least
    [t] claims in the table: the rows come back in table order, each as
    often as it is in the table, a VIN with fewer than [t] rows brings
    none of its claims and a VIN with [t] rows or more brings all. *)
Theorem multiple_claims_per_vin_exact (s : RiskDetector) (df : DataFrame) (t : Z) :
  data s = Some df -> has_column "VIN" df = true ->
  exists result s',
    detect_multiple_claims_per_vin t s = (Ok result, s') /\
    rows result
    = filter (fun r =>
                match vin r with
                | Some v => (t <=? Z.of_nat (List.length (rows_with vin v (rows df))))%Z
                | None => false
                end) (rows df) /\
    (forall r, In r (rows result) <->
               In r (rows df) /\
               exists v, vin r = Some v /\
                         (t <= Z.of_nat (List.length (rows_with vin v (rows df))))%Z).
Proof.
  intros Hd Hc.
  destruct (detect_multiple_claims_per_vin_rows s df t Hd Hc)
    as [result [s' [Hrun [_ Hrows]]]].
  assert (Hspec : rows result
    = filter (fun r =>
                match vin r with
                | Some v => (t <=? Z.of_nat (List.length (rows_with vin v (rows df))))%Z
                | None => false
                end) (rows df)).
  { rewrite Hrows. apply filter_ext_in. intros r Hr. now apply multiple_claims_mask. }
  exists result, s'. split; [exact Hrun |]. split; [exact Hspec |].
  intros r. rewrite Hspec, filter_In. split.
  - intros [Hr Ht]. split; [exact Hr |].
    destruct (vin r) as [v|]; [| discriminate].
    exists v. split; [reflexivity | now apply Z.leb_le].
  - intros [Hr [v [Hv Ht]]]. split; [exact Hr |]. rewrite Hv. now apply Z.leb_le.
Qed.

(* ================================================================= *)
(** ** Claims without VIN *)

Lemma select_isin_not_null (key : Claim -> option string) (l : list string)
  (df : DataFrame) (r : Claim) :
  In r (rows (select (fun r => isin (key r) l) df)) -> key r <> None.
Proof.
  simpl. rewrite filter_In. intros [_ H] Hn. rewrite Hn in H. discriminate.
Qed.

Ltac run_method :=
  unfold bind, get_data, require, missing_columns, update_results, set_data,
    get_results, ret, raise; simpl.

(** C10.  A claim whose VIN is null is in no group of the grouping by
    VIN, and none of the three VIN detectors returns it, whatever the
    thresholds and whatever the table. *)
Theorem null_vin_never_reported (s : RiskDetector) (t d : Z) (r : Claim) :
  vin r = None ->
  (forall df g, In g (groupby vin (rows df)) -> ~ In r (snd g)) /\
  ~ In r (returned_rows (fst (detect_multiple_claims_per_vin t s))) /\
  ~ In r (returned_rows (fst (detect_multiple_dealers_per_vin s))) /\
  ~ In r (returned_rows (fst (detect_repeated_claims_timeframe d s))).
Proof.
  intros Hnull. split; [| split; [| split]].
  - intros df [k g] Hg Hr. apply groupby_In in Hg as [-> _].
    simpl in Hr. apply filter_In in Hr as [_ Hr]. apply eqs_true in Hr. congruence.
  - unfold detect_multiple_claims_per_vin. run_method.
    destruct (data s) as [df|]; simpl; [| intros []].
    destruct (has_column "VIN" df); simpl; [| intros []].
    destruct (0 <? List.length (high_claim_vins t df))%nat; simpl; [| intros []].
    intros H. now apply (select_isin_not_null vin _ df r) in H.
  - unfold detect_multiple_dealers_per_vin. run_method.
    destruct (data s) as [df|]; simpl; [| intros []].
    destruct (has_column "VIN" df); simpl; [| intros []].
    destruct (has_column "Selling Dealer" df); simpl; [| intros []].
    destruct (0 <? List.length (multi_dealer_vins df))%nat; simpl; [| intros []].
    intros H. now apply (select_isin_not_null vin _ df r) in H.
  - unfold detect_repeated_claims_timeframe. run_method.
    destruct (data s) as [df|]; simpl; [| intros []].
    destruct (has_column "VIN" df); simpl; [| intros []].
    destruct (multi_claim_vins df); simpl; [intros [] |].
    destruct (has_column "RO Date" df); simpl; [| intros []].
    destruct (rapid_claim_vins d df) eqn:E; simpl; [intros [] |].
    intros H. now apply (select_isin_not_null vin _ df r) in H.
Qed.

(* ================================================================= *)
(** ** High dollar claims *)

Lemma Qltb_lt (a b : Q) : Qltb a b = true <-> (a < b)%Q.
Proof.
  unfold Qltb. rewrite negb_true_iff. split.
  - intros H. apply Qnot_le_lt. intros Hle. apply Qle_bool_iff in Hle. congruence.
  - intros H. apply not_true_is_false. intros Hle.
    apply Qle_bool_iff in Hle. now apply (Qlt_not_le _ _ H).
Qed.

Lemma Qsquare_nonneg (a : Q) : (0 <= a * a)%Q.
Proof.
  unfold Qle. simpl. rewrite Z.mul_1_r. apply Z.square_nonneg.
Qed.

Lemma Qsum_squares_nonneg (m : Q) (xs : list Q) :
  (0 <= Qsum (map (fun x => (x - m) * (x - m)) xs))%Q.
Proof.
  induction xs as [|x xs IH]; simpl.
  - apply Qle_refl.
  - replace 0%Q with (0 + 0)%Q by reflexivity.
    apply Qplus_le_compat; [apply Qsquare_nonneg | exact IH].
Qed.

Lemma filter_length_le {A} (f g : A -> bool) (l : list A) :
  (forall x, In x l -> f x = true -> g x = true) ->
  (List.length (filter f l) <= List.length (filter g l))%nat.
Proof.
  induction l as [|x l IH]; intros H; simpl; [lia |].
  assert (IH' : (List.length (filter f l) <= List.length (filter g l))%nat).
  { apply IH. intros y Hy. apply H. now right. }
  destruct (f x) eqn:Ef.
  - rewrite (H x (or_introl eq_refl) Ef). simpl. lia.
  - destruct (g x); simpl; lia.
Qed.

Lemma high_dollar_returned (k : Q) (s : RiskDetector) :
  returned_rows (fst (detect_high_dollar_claims k s))
  = match data s with
    | Some df =>
        if has_column "Paid Amount" df
        then filter (fun r => fgt (paid_amount r) (dollar_threshold k df)) (rows df)
        else []
    | None => []
    end.
Proof.
  unfold detect_high_dollar_claims. run_method.
  destruct (data s) as [df|]; simpl; [| reflexivity].
  destruct (has_column "Paid Amount" df); simpl; [| reflexivity].
  destruct (0 <? _)%nat eqn:E; simpl.
  - reflexivity.
  - apply length_pos_nil in E. symmetry. exact E.
Qed.

Section HighDollar.

(** The root of a number that is not negative is not negative. *)
Hypothesis sqrt_nonneg : forall x, (0 <= x)%Q -> (0 <= sqrt x)%Q.

Lemma std_nonneg (l : list float) (sd : Q) : std l = Some sd -> (0 <= sd)%Q.
Proof using sqrt_nonneg.
  unfold std. destruct (mean l) as [m|]; [| discriminate].
  destruct (List.length (dropna_values l) <=? 1)%nat; [discriminate |].
  intros H. inversion H. apply sqrt_nonneg.
  unfold Qdiv. apply Qmult_le_0_compat.
  - apply Qsum_squares_nonneg.
  - apply Qinv_le_0_compat. unfold Qle. simpl. lia.
Qed.

(** A larger multiplier gives a threshold that is not smaller. *)
Lemma dollar_threshold_mono (df : DataFrame) (k1 k2 th2 : Q) :
  (k1 <= k2)%Q -> dollar_threshold k2 df = Some th2 ->
  exists th1, dollar_threshold k1 df = Some th1 /\ (th1 <= th2)%Q.
Proof using sqrt_nonneg.
  unfold dollar_threshold. intros Hk.
  destruct (mean (map paid_amount (rows df))) as [m|]; [| discriminate].
  destruct (std (map paid_amount (rows df))) as [sd|] eqn:Hsd; [| discriminate].
  simpl. intros H. inversion H. eexists. split; [reflexivity |].
  apply Qplus_le_r. apply Qmult_le_compat_r; [exact Hk |].
  now apply std_nonneg with (map paid_amount (rows df)).
Qed.

Lemma above_threshold_mono (df : DataFrame) (k1 k2 : Q) (p : float) :
  (k1 <= k2)%Q ->
  fgt p (dollar_threshold k2 df) = true -> fgt p (dollar_threshold k1 df) = true.
Proof using sqrt_nonneg.
  intros Hk. destruct p as [x|]; [| discriminate].
  destruct (dollar_threshold k2 df) as [th2|] eqn:H2; [| discriminate].
  destruct (dollar_threshold_mono df k1 k2 th2 Hk H2) as [th1 [-> Hle]].
  simpl. rewrite !Qltb_lt. intros H. now apply Qle_lt_trans with th2.
Qed.

(** C5.  When the multiplier grows from [k1] to [k2], every claim that
    [detect_high_dollar_claims] returns with [k2] is among those it
    returns with [k1], and there are not more of them. *)
Theorem high_dollar_claims_antitone (s : RiskDetector) (k1 k2 : Q) :
  (k1 <= k2)%Q ->
  incl (returned_rows (fst (detect_high_dollar_claims k2 s)))
       (returned_rows (fst (detect_high_dollar_claims k1 s))) /\
  (List.length (returned_rows (fst (detect_high_dollar_claims k2 s)))
   <= List.length (returned_rows (fst (detect_high_dollar_claims k1 s))))%nat.
Proof using sqrt_nonneg.
  intros Hk. rewrite !high_dollar_returned.
  destruct (data s) as [df|]; [| split; [apply incl_refl | lia]].
  destruct (has_column "Paid Amount" df); [| split; [apply incl_refl | lia]].
  split.
  - intros r. rewrite !filter_In. intros [Hr H]. split; [exact Hr |].
    now apply above_threshold_mono with k2.
  - apply filter_length_le. intros r _. now apply above_threshold_mono.
Qed.

End HighDollar.

(* ================================================================= *)
(** ** High claims per dealer *)





(* ================================================================= *)
(** ** Repeated claims within a timeframe *)

Lemma near_pair_cons (d : Z) (x : option Timestamp) (l : list (option Timestamp)) :
  near_pair d (x :: l) <->
  (exists a b, x = Some a /\ nth_error l 0 = Some (Some b) /\
               ((b - a) / ns_per_day <= d)%Z) \/
  near_pair d l.
Proof.
  unfold near_pair. split.
  - intros [i [a [b [Hi [Hj Hd]]]]]. destruct i as [|i]; simpl in Hi, Hj.
    + left. exists a, b. inversion Hi. now repeat split.
    + right. now exists i, a, b.
  - intros [[a [b [-> [Hb Hd]]]] | [i [a [b [Hi [Hj Hd]]]]]].
    + now exists 0%nat, a, b.
    + now exists (S i), a, b.
Qed.

(** The loop finds a pair exactly when there is one. *)
Lemma rapid_pair_near (d : Z) (dates : list (option Timestamp)) :
  rapid_pair d dates = true <-> near_pair d dates.
Proof.
  induction dates as [|x l IH].
  - simpl. split; [discriminate |].
    intros [i [a [b [Hi _]]]]. destruct i; discriminate.
  - rewrite near_pair_cons. destruct l as [|y l'].
    + simpl. split; [discriminate |].
      intros [[a [b [_ [H _]]]] | [i [a [b [Hi _]]]]]; [discriminate |].
      destruct i; discriminate.
    + change (rapid_pair d (x :: y :: l')) with
        (match x, y with
         | Some c, Some n =>
             if ((n - c) / ns_per_day <=? d)%Z then true
             else rapid_pair d (y :: l')
         | _, _ => rapid_pair d (y :: l')
         end).
      destruct x as [c|], y as [n|];
        try (rewrite IH; split;
             [intros H; now right
             | intros [[a [b [Ha [Hb _]]]] | H]; [discriminate | exact H]]).
      destruct ((n - c) / ns_per_day <=? d)%Z eqn:E.
      * split; [| reflexivity]. intros _. left. exists c, n.
        repeat split. now apply Z.leb_le.
      * rewrite IH. split; [intros H; now right |].
        intros [[a [b [Ha [Hb Hd]]]] | H]; [| exact H].
        inversion Ha. inversion Hb. subst. apply Z.leb_le in Hd. congruence.
Qed.

Lemma date_le_total (a b : option Timestamp) :
  date_le a b = true \/ date_le b a = true.
Proof.
  destruct a as [x|], b as [y|]; simpl; auto.
  destruct (Z.le_ge_cases x y); [left | right]; now apply Z.leb_le.
Qed.

Lemma date_le_trans (a b c : option Timestamp) :
  date_le a b = true -> date_le b c = true -> date_le a c = true.
Proof.
  destruct a as [x|], b as [y|], c as [z|]; simpl; try congruence.
  rewrite !Z.leb_le. lia.
Qed.

(** [vin_claims] holds the claims of the VIN, each once, by ascending
    date with the undated ones at the end. *)
Lemma vin_claims_sorted (v : string) (df : DataFrame) :
  Permutation (vin_claims v df) (rows_with vin v (rows df)) /\
  sorted_by (fun a b => date_le (ro_date a) (ro_date b)) (vin_claims v df).
Proof.
  unfold vin_claims. split.
  - apply sort_by_perm.
  - apply sort_by_sorted.
    + intros x y. apply date_le_total.
    + intros x y z. apply date_le_trans.
Qed.

Lemma multi_claim_vins_In (df : DataFrame) (v : string) :
  In v (multi_claim_vins df) <->
  (1 < List.length (rows_with vin v (rows df)))%nat.
Proof.
  unfold multi_claim_vins. rewrite in_map_iff. split.
  - intros [[k n] [E H]]. simpl in E. subst k. apply filter_In in H as [H Hn].
    apply vin_counts_In in H as [-> _]. simpl in Hn. now apply Nat.ltb_lt.
  - intros H. exists (v, List.length (rows_with vin v (rows df))).
    split; [reflexivity |]. apply filter_In. split.
    + apply vin_counts_In. split; [reflexivity |].
      intros E. rewrite E in H. simpl in H. lia.
    + simpl. now apply Nat.ltb_lt.
Qed.

Lemma near_pair_length (d : Z) (dates : list (option Timestamp)) :
  near_pair d dates -> (1 < List.length dates)%nat.
Proof.
  intros [i [a [b [_ [Hj _]]]]].
  assert (H : (S i < List.length dates)%nat)
    by (apply nth_error_Some; congruence).
  lia.
Qed.

Lemma rapid_claim_vins_In (d : Z) (df : DataFrame) (v : string) :
  In v (rapid_claim_vins d df) <-> near_pair d (map ro_date (vin_claims v df)).
Proof.
  unfold rapid_claim_vins. rewrite filter_In, rapid_pair_near, multi_claim_vins_In.
  split; [now intros [_ H] |]. intros H. split; [| exact H].
  apply near_pair_length in H. rewrite length_map in H.
  now rewrite <- (Permutation_length (proj1 (vin_claims_sorted v df))).
Qed.

(** In a list of dates in the order of [sort_values], two dated entries
    within the threshold, however far apart in the list, have two dated
    neighbours within the threshold between them. *)
Lemma sorted_any_pair_near (d : Z) (dates : list (option Timestamp)) :
  sorted_by date_le dates ->
  forall i j a b,
    (i < j)%nat ->
    nth_error dates i = Some (Some a) -> nth_error dates j = Some (Some b) ->
    ((b - a) / ns_per_day <= d)%Z ->
    near_pair d dates.
Proof.
  induction dates as [|x l IH]; intros Hs i j a b Hij Hi Hj Hd.
  - destruct i; discriminate.
  - destruct Hs as [Hx Hl]. apply near_pair_cons.
    destruct i as [|i]; simpl in Hi.
    + inversion Hi; subst x. destruct j as [|j]; [lia |]. simpl in Hj.
      destruct l as [|y l']; [destruct j; discriminate |].
      left. assert (Hy : date_le (Some a) y = true) by (apply Hx; now left).
      assert (Hyb : date_le y (Some b) = true).
      { destruct j as [|j]; simpl in Hj.
        - inversion Hj. simpl. apply Z.leb_refl.
        - destruct Hl as [Hy' _]. apply Hy'. now apply nth_error_In with j. }
      destruct y as [c|]; [| discriminate].
      simpl in Hy, Hyb. apply Z.leb_le in Hy, Hyb.
      exists a, c. repeat split.
      apply Z.le_trans with ((b - a) / ns_per_day)%Z; [| exact Hd].
      apply Z.div_le_mono; [reflexivity | lia].
    + destruct j as [|j]; [lia |]. simpl in Hj. right.
      apply (IH Hl i j a b); [lia | assumption..].
Qed.

Lemma sorted_by_map {A B} (f : A -> B) (le : B -> B -> bool) (l : list A) :
  sorted_by (fun x y => le (f x) (f y)) l -> sorted_by le (map f l).
Proof.
  induction l as [|x l IH]; simpl; [trivial |].
  intros [Hx Hl]. split; [| now apply IH].
  intros y Hy. apply in_map_iff in Hy as [z [<- Hz]]. now apply Hx.
Qed.

(** C3.  On a table with the [VIN] and [RO Date] columns,
    [detect_repeated_claims_timeframe] with threshold [d] flags a VIN
    exactly when, among its claims sorted by ascending service date, two
    neighbours both have a date and lie at most [d] whole days apart.
    The sorted list holds every claim of the VIN with the undated ones
    last, so that an undated claim is in no qualifying pair and stands
    between no two dated ones; any two dated claims of the VIN within the
    threshold flag it.  The detector returns every claim of every flagged
    VIN and nothing else. *)
Theorem repeated_claims_timeframe_iff (s : RiskDetector) (df : DataFrame) (d : Z) :
  data s = Some df ->
  has_column "VIN" df = true -> has_column "RO Date" df = true ->
  exists result s',
    detect_repeated_claims_timeframe d s = (Ok result, s') /\
    (forall v,
       Permutation (vin_claims v df) (rows_with vin v (rows df)) /\
       sorted_by (fun a b => date_le (ro_date a) (ro_date b)) (vin_claims v df)) /\
    (forall v, In v (rapid_claim_vins d df) <->
               near_pair d (map ro_date (vin_claims v df))) /\
    (forall v i j a b,
       (i < j)%nat ->
       nth_error (map ro_date (vin_claims v df)) i = Some (Some a) ->
       nth_error (map ro_date (vin_claims v df)) j = Some (Some b) ->
       ((b - a) / ns_per_day <= d)%Z ->
       In v (rapid_claim_vins d df)) /\
    (forall r, In r (rows result) <->
               In r (rows df) /\
               exists v, vin r = Some v /\ In v (rapid_claim_vins d df)).
Proof.
  intros Hd Hv Hro.
  assert (Hrun : exists result s',
    detect_repeated_claims_timeframe d s = (Ok result, s') /\
    rows result = filter (fun r => isin (vin r) (rapid_claim_vins d df)) (rows df)).
  { unfold detect_repeated_claims_timeframe. run_method. rewrite Hd, Hv. simpl.
    destruct (multi_claim_vins df) as [|v0 vs] eqn:Em; simpl.
    - exists empty_frame, s. split; [reflexivity |].
      unfold rapid_claim_vins. rewrite Em. simpl. now rewrite filter_isin_nil.
    - rewrite Hro. simpl.
      destruct (rapid_claim_vins d df) as [|w ws] eqn:Er; simpl.
      + exists empty_frame, s. split; [reflexivity |]. simpl.
        now rewrite filter_isin_nil.
      + eexists; eexists. split; reflexivity. }
  destruct Hrun as [result [s' [Hrun Hrows]]].
  exists result, s'. split; [exact Hrun |].
  split; [intros v; apply vin_claims_sorted |].
  split; [intros v; apply rapid_claim_vins_In |].
  split.
  - intros v i j a b Hij Hi Hj Hn. apply rapid_claim_vins_In.
    apply (sorted_any_pair_near d _ (sorted_by_map ro_date date_le _
             (proj2 (vin_claims_sorted v df))) i j a b Hij Hi Hj Hn).
  - intros r. rewrite Hrows, filter_In, isin_In. reflexivity.
Qed.

(* ================================================================= *)
(** ** Aggregates by coverage type and by luxury brand *)












Lemma has_column_assign_brand (c : string) (df : DataFrame) :
  has_column c df = true -> has_column c (assign_brand df) = true.
Proof.
  unfold assign_brand, has_column at 1 2. simpl. intros H.
  destruct (has_column "Brand" df); [exact H |].
  rewrite existsb_app, H. reflexivity.
Qed.




(* ================================================================= *)
(** ** The empty table *)

Lemma has_schema_columns (df : DataFrame) :
  has_schema df = true ->
  has_column "VIN" df = true /\ has_column "Paid Amount" df = true /\
  has_column "Selling Dealer" df = true /\ has_column "RO Date" df = true /\
  has_column "Claim #" df = true /\ has_column "Vehicle" df = true /\
  has_column "Coverage" df = true /\ has_column "Default Servicer" df = true.
Proof.
  unfold has_schema, schema. cbn [forallb]. rewrite !andb_true_iff.
  intros (H1 & H2 & H3 & H4 & H5 & H6 & H7 & H8 & _). repeat split; assumption.
Qed.

Lemma empty_multiple_claims (s : RiskDetector) (df : DataFrame) (t : Z) :
  data s = Some df -> rows df = [] -> has_column "VIN" df = true ->
  detect_multiple_claims_per_vin t s = (Ok empty_frame, s).
Proof.
  intros Hd Hr Hc. unfold detect_multiple_claims_per_vin.
  rewrite (bind_ok _ _ _ _ _ (get_data_loaded s df Hd)).
  rewrite (bind_ok (require ["VIN"] df) _ s s tt) by (now rewrite require_one, Hc).
  unfold high_claim_vins, vin_counts. rewrite Hr. reflexivity.
Qed.

Lemma empty_high_dollar (s : RiskDetector) (df : DataFrame) (k : Q) :
  data s = Some df -> rows df = [] -> has_column "Paid Amount" df = true ->
  detect_high_dollar_claims k s = (Ok empty_frame, s).
Proof.
  intros Hd Hr Hc. unfold detect_high_dollar_claims.
  rewrite (bind_ok _ _ _ _ _ (get_data_loaded s df Hd)).
  rewrite (bind_ok (require ["Paid Amount"] df) _ s s tt)
    by (now rewrite require_one, Hc).
  unfold select. rewrite Hr. reflexivity.
Qed.

Lemma empty_multiple_dealers (s : RiskDetector) (df : DataFrame) :
  data s = Some df -> rows df = [] ->
  has_column "VIN" df = true -> has_column "Selling Dealer" df = true ->
  detect_multiple_dealers_per_vin s = (Ok empty_frame, s).
Proof.
  intros Hd Hr Hc1 Hc2. unfold detect_multiple_dealers_per_vin.
  rewrite (bind_ok _ _ _ _ _ (get_data_loaded s df Hd)).
  rewrite (bind_ok (require ["VIN"] df) _ s s tt) by (now rewrite require_one, Hc1).
  rewrite (bind_ok (require ["Selling Dealer"] df) _ s s tt)
    by (now rewrite require_one, Hc2).
  unfold multi_dealer_vins, vin_dealer_counts. rewrite Hr. reflexivity.
Qed.

Lemma empty_repeated_claims (s : RiskDetector) (df : DataFrame) (d : Z) :
  data s = Some df -> rows df = [] -> has_column "VIN" df = true ->
  detect_repeated_claims_timeframe d s = (Ok empty_frame, s).
Proof.
  intros Hd Hr Hc. unfold detect_repeated_claims_timeframe.
  rewrite (bind_ok _ _ _ _ _ (get_data_loaded s df Hd)).
  rewrite (bind_ok (require ["VIN"] df) _ s s tt) by (now rewrite require_one, Hc).
  unfold multi_claim_vins, vin_counts. rewrite Hr. reflexivity.
Qed.

Lemma empty_high_claims_per_dealer (s : RiskDetector) (df : DataFrame)
  (ct : Z) (m : Q) :
  data s = Some df -> rows df = [] ->
  has_column "Selling Dealer" df = true -> has_column "Claim #" df = true ->
  has_column "Paid Amount" df = true ->
  detect_high_claims_per_dealer ct m s = (Ok [], s).
Proof.
  intros Hd Hr Hc1 Hc2 Hc3. unfold detect_high_claims_per_dealer.
  rewrite (bind_ok _ _ _ _ _ (get_data_loaded s df Hd)).
  rewrite (bind_ok (require ["Selling Dealer"] df) _ s s tt)
    by (now rewrite require_one, Hc1).
  rewrite (bind_ok (require ["Claim #"; "Paid Amount"] df) _ s s tt)
    by (apply require_present; cbn [forallb]; now rewrite Hc2, Hc3).
  unfold high_risk_dealers, dealer_stats. rewrite Hr. reflexivity.
Qed.

Lemma empty_luxury (s : RiskDetector) (df : DataFrame) :
  data s = Some df -> rows df = [] -> has_column "Vehicle" df = true ->
  detect_luxury_vehicle_patterns s
  = (Ok [], mkDetector (file_path s) (Some (assign_brand df)) (results s)).
Proof.
  intros Hd Hr Hc. unfold detect_luxury_vehicle_patterns.
  rewrite (bind_ok _ _ _ _ _ (get_data_loaded s df Hd)).
  rewrite (bind_ok (require ["Vehicle"] df) _ s s tt) by (now rewrite require_one, Hc).
  set (s1 := mkDetector (file_path s) (Some (assign_brand df)) (results s)).
  rewrite (bind_ok (set_data (assign_brand df)) _ s s1 tt) by reflexivity.
  rewrite (bind_ok get_data _ s1 s1 (assign_brand df)) by reflexivity.
  unfold luxury_claims, select, assign_brand. rewrite Hr. reflexivity.
Qed.

Lemma empty_coverage (s : RiskDetector) (df : DataFrame) :
  data s = Some df -> rows df = [] ->
  has_column "Coverage" df = true -> has_column "Claim #" df = true ->
  has_column "Paid Amount" df = true ->
  detect_coverage_type_patterns s
  = (Ok [], mkDetector (file_path s) (data s)
              (store_coverage_type_patterns [] (results s))).
Proof.
  intros Hd Hr Hc1 Hc2 Hc3. unfold detect_coverage_type_patterns.
  rewrite (bind_ok _ _ _ _ _ (get_data_loaded s df Hd)).
  rewrite (bind_ok (require ["Coverage"] df) _ s s tt)
    by (now rewrite require_one, Hc1).
  rewrite (bind_ok (require ["Claim #"; "Paid Amount"] df) _ s s tt)
    by (apply require_present; cbn [forallb]; now rewrite Hc2, Hc3).
  unfold coverage_stats, coverage_groups. rewrite Hr. reflexivity.
Qed.

Lemma getitem_present {T} (c : Column T) (df : DataFrame) (s : RiskDetector) :
  has_column (col_name c) df = true ->
  getitem c df s = (Ok (map (col_get c) (rows df)), s).
Proof.
  intros H. unfold getitem.
  rewrite (bind_ok (require [col_name c] df) _ s s tt) by (now rewrite require_one, H).
  reflexivity.
Qed.

Lemma empty_summary (s : RiskDetector) (df : DataFrame) :
  data s = Some df -> rows df = [] ->
  has_column "Paid Amount" df = true -> has_column "VIN" df = true ->
  has_column "Selling Dealer" df = true ->
  multiple_claims_per_vin (results s) = None ->
  high_dollar_claims (results s) = None ->
  multiple_dealers_per_vin (results s) = None ->
  repeated_claims_timeframe (results s) = None ->
  generate_summary_report s
  = (Ok (Summary.mk 0 0 None None 0 0
           (dealer_pattern (high_claims_per_dealer (results s))
            ++ luxury_pattern (luxury_vehicle_patterns (results s))
            ++ coverage_pattern (coverage_type_patterns (results s)))), s).
Proof.
  intros Hd Hr Hc1 Hc2 Hc3 H1 H2 H3 H4. unfold generate_summary_report.
  rewrite (bind_ok _ _ _ _ _ (get_data_loaded s df Hd)).
  rewrite (bind_ok _ _ _ _ _ (getitem_present PaidAmount df s Hc1)).
  rewrite (bind_ok _ _ _ _ _ (getitem_present VIN df s Hc2)).
  rewrite (bind_ok _ _ _ _ _ (getitem_present SellingDealer df s Hc3)).
  rewrite (bind_ok get_results _ s s (results s)) by reflexivity.
  rewrite H1, H2, H3, H4, Hr. reflexivity.
Qed.

Lemma assign_brand_empty (df : DataFrame) :
  rows df = [] -> rows (assign_brand df) = [].
Proof.
  intros H. unfold assign_brand. simpl. now rewrite H.
Qed.

(** C6.  On the empty table under the columns of the input, each of the
    seven detectors returns an empty finding and raises nothing;
    [generate_summary_report] reports no claim, a total paid of 0, no VIN
    and no dealer, the average and the maximum being NaN; and
    [run_all_detections] on a fresh detector ends with that summary, in
    which the only pattern is the coverage table with no coverage type. *)
Theorem empty_table_empty_findings (s : RiskDetector) (df : DataFrame)
  (t d ct : Z) (k m : Q) :
  data s = Some df -> rows df = [] -> has_schema df = true ->
  results s = no_results ->
  fst (detect_multiple_claims_per_vin t s) = Ok empty_frame /\
  fst (detect_high_dollar_claims k s) = Ok empty_frame /\
  fst (detect_multiple_dealers_per_vin s) = Ok empty_frame /\
  fst (detect_repeated_claims_timeframe d s) = Ok empty_frame /\
  fst (detect_high_claims_per_dealer ct m s) = Ok [] /\
  fst (detect_luxury_vehicle_patterns s) = Ok [] /\
  fst (detect_coverage_type_patterns s) = Ok [] /\
  fst (generate_summary_report s) = Ok (Summary.mk 0 0 None None 0 0 []) /\
  fst (run_all_detections s)
  = Ok (Summary.mk 0 0 None None 0 0
          [("coverage_type_patterns", [("coverage_types", IntV 0)])]).
Proof.
  intros Hd Hr Hs Hres.
  destruct (has_schema_columns df Hs)
    as [Hvin [Hpaid [Hdealer [Hro [Hno [Hveh [Hcov _]]]]]]].
  assert (E1 := empty_multiple_claims s df t Hd Hr Hvin).
  assert (E2 := empty_high_dollar s df k Hd Hr Hpaid).
  assert (E3 := empty_multiple_dealers s df Hd Hr Hvin Hdealer).
  assert (E4 := empty_repeated_claims s df d Hd Hr Hvin).
  assert (E5 := empty_high_claims_per_dealer s df ct m Hd Hr Hdealer Hno Hpaid).
  assert (E6 := empty_luxury s df Hd Hr Hveh).
  assert (E7 := empty_coverage s df Hd Hr Hcov Hno Hpaid).
  rewrite E1, E2, E3, E4, E5, E6, E7.
  repeat (split; [reflexivity |]).
  split.
  { rewrite (empty_summary s df Hd Hr Hpaid Hvin Hdealer);
      rewrite Hres; reflexivity. }
  unfold run_all_detections.
  rewrite (bind_ok _ _ s s tt) by (now rewrite Hd).
  rewrite (bind_ok _ _ _ _ _ (empty_multiple_claims s df 2 Hd Hr Hvin)).
  rewrite (bind_ok _ _ _ _ _ (empty_high_dollar s df 2 Hd Hr Hpaid)).
  rewrite (bind_ok _ _ _ _ _ E3).
  rewrite (bind_ok _ _ _ _ _ (empty_repeated_claims s df 30 Hd Hr Hvin)).
  rewrite (bind_ok _ _ _ _ _
             (empty_high_claims_per_dealer s df 3 (3 # 2) Hd Hr Hdealer Hno Hpaid)).
  rewrite (bind_ok _ _ _ _ _ E6).
  set (s1 := mkDetector (file_path s) (Some (assign_brand df)) (results s)).
  assert (Hd1 : data s1 = Some (assign_brand df)) by reflexivity.
  assert (Hr1 := assign_brand_empty df Hr).
  rewrite (bind_ok _ _ _ _ _
             (empty_coverage s1 (assign_brand df) Hd1 Hr1
                (has_column_assign_brand _ _ Hcov)
                (has_column_assign_brand _ _ Hno)
                (has_column_assign_brand _ _ Hpaid))).
  set (s2 := mkDetector (file_path s1) (data s1)
               (store_coverage_type_patterns [] (results s1))).
  assert (Hd2 : data s2 = Some (assign_brand df)) by reflexivity.
  rewrite (empty_summary s2 (assign_brand df) Hd2 Hr1
             (has_column_assign_brand _ _ Hpaid)
             (has_column_assign_brand _ _ Hvin)
             (has_column_assign_brand _ _ Hdealer));
    unfold s2, s1; simpl; rewrite Hres; reflexivity.
Qed.

(* ================================================================= *)
(** ** Missing columns *)

(** C7, as the code has it.  No detector checks the schema.  On a table
    that lacks the column a detector reads first, the detector stops with
    the [KeyError] pandas raises for that column, before any aggregation,
    and leaves the table and the results as they were. *)
Theorem missing_column_raises_key_error (s : RiskDetector) (df : DataFrame)
  (t d ct : Z) (k m : Q) :
  data s = Some df ->
  (has_column "VIN" df = false ->
   detect_multiple_claims_per_vin t s = (Raise (KeyError ["VIN"]), s) /\
   detect_multiple_dealers_per_vin s = (Raise (KeyError ["VIN"]), s) /\
   detect_repeated_claims_timeframe d s = (Raise (KeyError ["VIN"]), s)) /\
  (has_column "Paid Amount" df = false ->
   detect_high_dollar_claims k s = (Raise (KeyError ["Paid Amount"]), s)) /\
  (has_column "Selling Dealer" df = false ->
   detect_high_claims_per_dealer ct m s
   = (Raise (KeyError ["Selling Dealer"]), s)) /\
  (has_column "Vehicle" df = false ->
   detect_luxury_vehicle_patterns s = (Raise (KeyError ["Vehicle"]), s)) /\
  (has_column "Coverage" df = false ->
   detect_coverage_type_patterns s = (Raise (KeyError ["Coverage"]), s)).
Proof.
  intros Hd.
  assert (Hraise : forall (A : Type) (c : string) (k : unit -> M A),
            has_column c df = false ->
            bind (require [c] df) k s = (Raise (KeyError [c]), s)).
  { intros A c k0 Hc. apply bind_raise. now rewrite require_one, Hc. }
  repeat match goal with
         | |- _ /\ _ => split
         | |- _ -> _ => intros Hc
         end.
  - unfold detect_multiple_claims_per_vin.
    rewrite (bind_ok _ _ _ _ _ (get_data_loaded s df Hd)). now apply Hraise.
  - unfold detect_multiple_dealers_per_vin.
    rewrite (bind_ok _ _ _ _ _ (get_data_loaded s df Hd)). now apply Hraise.
  - unfold detect_repeated_claims_timeframe.
    rewrite (bind_ok _ _ _ _ _ (get_data_loaded s df Hd)). now apply Hraise.
  - unfold detect_high_dollar_claims.
    rewrite (bind_ok _ _ _ _ _ (get_data_loaded s df Hd)). now apply Hraise.
  - unfold detect_high_claims_per_dealer.
    rewrite (bind_ok _ _ _ _ _ (get_data_loaded s df Hd)). now apply Hraise.
  - unfold detect_luxury_vehicle_patterns.
    rewrite (bind_ok _ _ _ _ _ (get_data_loaded s df Hd)). now apply Hraise.
  - unfold detect_coverage_type_patterns.
    rewrite (bind_ok _ _ _ _ _ (get_data_loaded s df Hd)). now apply Hraise.
Qed.

(* ================================================================= *)
(** ** Cleaning *)




(* ================================================================= *)
(** ** The table is read, not written *)














(* ================================================================= *)
(** ** More on the VIN detectors *)

Lemma dropna_values_In {A} (x : A) (l : list (option A)) :
  In x (dropna_values l) <-> In (Some x) l.
Proof.
  induction l as [|[y|] l IH]; simpl.
  - reflexivity.
  - rewrite IH. split; intros [H | H]; auto; left; congruence.
  - rewrite IH. split; [now right | intros [H | H]; [discriminate | exact H]].
Qed.

Lemma dropna_values_length {A} (l : list (option A)) :
  (List.length (dropna_values l) <= List.length l)%nat.
Proof.
  induction l as [|[y|] l IH]; simpl; lia.
Qed.

Lemma distinct_In (x : string) (l : list string) : In x (distinct l) <-> In x l.
Proof.
  induction l as [|y l IH]; simpl; [reflexivity |].
  rewrite filter_In, IH. split.
  - intros [H | [H _]]; auto.
  - intros [H | H]; [now left |].
    destruct (String.eqb_spec y x) as [E | E]; [now left | right].
    split; [exact H | reflexivity].
Qed.

Lemma distinct_NoDup (l : list string) : NoDup (distinct l).
Proof.
  induction l as [|y l IH]; simpl; constructor.
  - rewrite filter_In. intros [_ H]. now rewrite String.eqb_refl in H.
  - now apply NoDup_filter.
Qed.

Lemma distinct_length (l : list string) :
  (List.length (distinct l) <= List.length l)%nat.
Proof.
  induction l as [|y l IH]; simpl; [lia |].
  pose proof (filter_length_le (fun z => negb (String.eqb y z)) (fun _ => true)
                (distinct l) (fun _ _ _ => eq_refl)) as H.
  rewrite (forallb_filter_id (fun _ : string => true)) in H; [lia |].
  apply forallb_forall. reflexivity.
Qed.

Lemma nunique_length (l : list (option string)) :
  (nunique l <= List.length l)%nat.
Proof.
  unfold nunique. pose proof (distinct_length (dropna_values l)).
  pose proof (dropna_values_length l). lia.
Qed.

(** More than one distinct value: two values that differ. *)
Lemma nunique_two (l : list (option string)) :
  (1 < nunique l)%nat <->
  exists a b, In (Some a) l /\ In (Some b) l /\ a <> b.
Proof.
  unfold nunique. split.
  - intros H. pose proof (distinct_NoDup (dropna_values l)) as Hnd.
    destruct (distinct (dropna_values l)) as [|a [|b xs]] eqn:E;
      simpl in H; try lia.
    assert (Ha : In a (distinct (dropna_values l))) by (rewrite E; now left).
    assert (Hb : In b (distinct (dropna_values l))) by (rewrite E; right; now left).
    apply distinct_In, dropna_values_In in Ha, Hb.
    exists a, b. split; [exact Ha |]. split; [exact Hb |].
    intros ->. apply NoDup_cons_iff in Hnd as [Hn _]. apply Hn. now left.
  - intros [a [b [Ha [Hb Hab]]]].
    apply dropna_values_In, distinct_In in Ha, Hb.
    destruct (distinct (dropna_values l)) as [|c [|c' xs]]; simpl in *.
    + contradiction.
    + destruct Ha as [<- | []], Hb as [<- | []]. congruence.
    + lia.
Qed.

Lemma multi_dealer_vins_In (df : DataFrame) (v : string) :
  In v (map fst (multi_dealer_vins df)) <->
  (1 < nunique (map selling_dealer (rows_with vin v (rows df))))%nat.
Proof.
  unfold multi_dealer_vins, vin_dealer_counts. rewrite in_map_iff. split.
  - intros [[k n] [E H]]. simpl in E. subst k. apply filter_In in H as [H Hn].
    apply in_map_iff in H as [[k g] [E H]]. inversion E; subst.
    apply groupby_In in H as [-> _]. simpl in Hn. now apply Nat.ltb_lt.
  - intros H. remember (rows_with vin v (rows df)) as g eqn:Eg.
    exists (v, nunique (map selling_dealer g)).
    split; [reflexivity |]. apply filter_In. split; [| now apply Nat.ltb_lt].
    apply in_map_iff. exists (v, g).
    split; [reflexivity |]. apply groupby_In. split; [exact Eg |].
    intros E. rewrite E in H. cbn in H. lia.
Qed.

Lemma multiple_claims_returned (t : Z) (s : RiskDetector) :
  returned_rows (fst (detect_multiple_claims_per_vin t s))
  = match data s with
    | Some df =>
        if has_column "VIN" df
        then filter (fun r => isin (vin r) (map fst (high_claim_vins t df))) (rows df)
        else []
    | None => []
    end.
Proof.
  destruct (data s) as [df|] eqn:Hd.
  - destruct (has_column "VIN" df) eqn:Hc.
    + destruct (detect_multiple_claims_per_vin_rows s df t Hd Hc)
        as [result [s' [Hrun [_ Hrows]]]].
      rewrite Hrun. exact Hrows.
    + unfold detect_multiple_claims_per_vin.
      rewrite (bind_ok _ _ _ _ _ (get_data_loaded s df Hd)).
      rewrite (bind_raise (require ["VIN"] df) _ s s (KeyError ["VIN"]))
        by (now rewrite require_one, Hc).
      reflexivity.
  - unfold detect_multiple_claims_per_vin, bind, get_data. now rewrite Hd.
Qed.

Lemma multiple_dealers_returned (s : RiskDetector) :
  returned_rows (fst (detect_multiple_dealers_per_vin s))
  = match data s with
    | Some df =>
        if has_column "VIN" df && has_column "Selling Dealer" df
        then filter (fun r => isin (vin r) (map fst (multi_dealer_vins df))) (rows df)
        else []
    | None => []
    end.
Proof.
  unfold detect_multiple_dealers_per_vin. unfold bind at 1. unfold get_data.
  destruct (data s) as [df|]; [| reflexivity].
  unfold bind at 1. rewrite require_one.
  destruct (has_column "VIN" df); [| reflexivity].
  unfold bind at 1. rewrite require_one.
  destruct (has_column "Selling Dealer" df); [| reflexivity].
  cbv zeta. cbn [andb]. destruct (0 <? _)%nat eqn:E.
  - reflexivity.
  - apply length_pos_nil in E. rewrite E. cbn [ret fst returned_rows map].
    now rewrite filter_isin_nil.
Qed.

Lemma repeated_claims_returned (d : Z) (s : RiskDetector) :
  returned_rows (fst (detect_repeated_claims_timeframe d s))
  = match data s with
    | Some df =>
        if has_column "VIN" df
           && (has_column "RO Date" df
               || match multi_claim_vins df with [] => true | _ :: _ => false end)
        then filter (fun r => isin (vin r) (rapid_claim_vins d df)) (rows df)
        else []
    | None => []
    end.
Proof.
  unfold detect_repeated_claims_timeframe. unfold bind at 1. unfold get_data.
  destruct (data s) as [df|]; [| reflexivity].
  unfold bind at 1. rewrite require_one.
  destruct (has_column "VIN" df); [| reflexivity]. cbn [andb].
  destruct (multi_claim_vins df) as [|v0 vs] eqn:Em.
  - rewrite orb_true_r. unfold rapid_claim_vins. rewrite Em.
    cbn [ret fst returned_rows filter]. now rewrite filter_isin_nil.
  - rewrite orb_false_r. unfold bind at 1. rewrite require_one.
    destruct (has_column "RO Date" df); [| reflexivity].
    cbv zeta. destruct (rapid_claim_vins d df) as [|w ws] eqn:Er.
    + cbn [ret fst returned_rows]. now rewrite filter_isin_nil.
    + reflexivity.
Qed.

Lemma rows_with_In (key : Claim -> option string) (v : string) (l : list Claim)
  (r : Claim) :
  In r (rows_with key v l) <-> In r l /\ key r = Some v.
Proof.
  unfold rows_with. rewrite filter_In, eqs_true. reflexivity.
Qed.

(** A VIN of the table with claims of two dealers. *)
Lemma two_dealers_nunique (df : DataFrame) (v : string) :
  (1 < nunique (map selling_dealer (rows_with vin v (rows df))))%nat <->
  exists r1 r2 a b,
    In r1 (rows df) /\ In r2 (rows df) /\ vin r1 = Some v /\ vin r2 = Some v /\
    selling_dealer r1 = Some a /\ selling_dealer r2 = Some b /\ a <> b.
Proof.
  rewrite nunique_two. split.
  - intros [a [b [Ha [Hb Hab]]]].
    apply in_map_iff in Ha as [r1 [E1 H1]]. apply in_map_iff in Hb as [r2 [E2 H2]].
    apply rows_with_In in H1 as [H1 V1]. apply rows_with_In in H2 as [H2 V2].
    exists r1, r2, a, b. repeat split; assumption.
  - intros [r1 [r2 [a [b [H1 [H2 [V1 [V2 [E1 [E2 Hab]]]]]]]]]].
    exists a, b. split; [| split; [| exact Hab]].
    + apply in_map_iff. exists r1. split; [exact E1 | now apply rows_with_In].
    + apply in_map_iff. exists r2. split; [exact E2 | now apply rows_with_In].
Qed.

(** X1.  On a table with the [VIN] and [Selling Dealer] columns,
    [detect_multiple_dealers_per_vin] returns exactly the claims of the
    VINs that have claims of two different dealers: a VIN whose claims
    all name one dealer, or name none, brings no claim, and a VIN with
    two dealers brings every claim it has. *)
Theorem multiple_dealers_per_vin_exact (s : RiskDetector) (df : DataFrame) :
  data s = Some df ->
  has_column "VIN" df = true -> has_column "Selling Dealer" df = true ->
  exists result s',
    detect_multiple_dealers_per_vin s = (Ok result, s') /\
    forall r, In r (rows result) <->
      In r (rows df) /\
      exists v, vin r = Some v /\
        exists r1 r2 a b,
          In r1 (rows df) /\ In r2 (rows df) /\
          vin r1 = Some v /\ vin r2 = Some v /\
          selling_dealer r1 = Some a /\ selling_dealer r2 = Some b /\ a <> b.
Proof.
  intros Hd Hv Hs.
  assert (Hrun : exists result s',
    detect_multiple_dealers_per_vin s = (Ok result, s') /\
    rows result
    = filter (fun r => isin (vin r) (map fst (multi_dealer_vins df))) (rows df)).
  { unfold detect_multiple_dealers_per_vin.
    rewrite (bind_ok _ _ _ _ _ (get_data_loaded s df Hd)).
    rewrite (bind_ok (require ["VIN"] df) _ s s tt) by (now rewrite require_one, Hv).
    rewrite (bind_ok (require ["Selling Dealer"] df) _ s s tt)
      by (now rewrite require_one, Hs).
    cbv zeta. destruct (0 <? _)%nat eqn:E.
    - eexists; eexists. split; reflexivity.
    - apply length_pos_nil in E. rewrite E. exists empty_frame, s.
      split; [reflexivity |]. cbn [map rows empty_frame]. now rewrite filter_isin_nil. }
  destruct Hrun as [result [s' [Hrun Hrows]]]. exists result, s'.
  split; [exact Hrun |]. intros r. rewrite Hrows, filter_In, isin_In.
  split.
  - intros [Hr [v [Hv' Hin]]]. split; [exact Hr |]. exists v. split; [exact Hv' |].
    now apply two_dealers_nunique, multi_dealer_vins_In.
  - intros [Hr [v [Hv' H2]]]. split; [exact Hr |]. exists v. split; [exact Hv' |].
    now apply multi_dealer_vins_In, two_dealers_nunique.
Qed.

(** X2.  Raising the threshold of [detect_multiple_claims_per_vin] only takes
    claims away. *)
Theorem multiple_claims_per_vin_antitone (s : RiskDetector) (t1 t2 : Z) :
  (t1 <= t2)%Z ->
  incl (returned_rows (fst (detect_multiple_claims_per_vin t2 s)))
       (returned_rows (fst (detect_multiple_claims_per_vin t1 s))).
Proof.
  intros Ht. rewrite !multiple_claims_returned.
  destruct (data s) as [df|]; [| apply incl_refl].
  destruct (has_column "VIN" df); [| apply incl_refl].
  intros r. rewrite !filter_In, !isin_In. intros [Hr [v [Hv Hin]]].
  split; [exact Hr |]. exists v. split; [exact Hv |].
  apply high_claim_vins_In in Hin as [Hne Hc]. apply high_claim_vins_In.
  split; [exact Hne | lia].
Qed.

Lemma near_pair_mono (d1 d2 : Z) (dates : list (option Timestamp)) :
  (d1 <= d2)%Z -> near_pair d1 dates -> near_pair d2 dates.
Proof.
  intros Hd [i [a [b [Hi [Hj H]]]]]. exists i, a, b. repeat split; try assumption. lia.
Qed.

(** X3.  Widening the window of [detect_repeated_claims_timeframe] only adds
    claims. *)
Theorem repeated_claims_timeframe_monotone (s : RiskDetector) (d1 d2 : Z) :
  (d1 <= d2)%Z ->
  incl (returned_rows (fst (detect_repeated_claims_timeframe d1 s)))
       (returned_rows (fst (detect_repeated_claims_timeframe d2 s))).
Proof.
  intros Hd. rewrite !repeated_claims_returned.
  destruct (data s) as [df|]; [| apply incl_refl].
  destruct (has_column "VIN" df && _); [| apply incl_refl].
  intros r. rewrite !filter_In, !isin_In. intros [Hr [v [Hv Hin]]].
  split; [exact Hr |]. exists v. split; [exact Hv |].
  apply rapid_claim_vins_In. apply rapid_claim_vins_In in Hin.
  now apply near_pair_mono with d1.
Qed.

(** X4.  Every claim that the repeated-claims detector or the multiple-dealers
    detector returns is a claim of a VIN with at least two claims: with a
    threshold of 2 or less, [detect_multiple_claims_per_vin] returns it
    too, on any table that has a [VIN] column. *)
Theorem vin_findings_within_multiple_claims (s : RiskDetector) (df : DataFrame)
  (t d : Z) :
  data s = Some df -> has_column "VIN" df = true -> (t <= 2)%Z ->
  incl (returned_rows (fst (detect_repeated_claims_timeframe d s)))
       (returned_rows (fst (detect_multiple_claims_per_vin t s))) /\
  incl (returned_rows (fst (detect_multiple_dealers_per_vin s)))
       (returned_rows (fst (detect_multiple_claims_per_vin t s))).
Proof.
  intros Hd Hv Ht.
  rewrite repeated_claims_returned, multiple_dealers_returned,
    multiple_claims_returned, Hd, Hv. cbn [andb].
  split.
  - destruct (has_column "RO Date" df || _); [| intros r []].
    intros r. rewrite !filter_In, !isin_In. intros [Hr [v [Hv' Hin]]].
    split; [exact Hr |]. exists v. split; [exact Hv' |].
    apply high_claim_vins_In. split; [now apply rows_with_nonempty with r |].
    apply rapid_claim_vins_In, near_pair_length in Hin.
    rewrite length_map in Hin.
    assert (Hlen : (1 < List.length (rows_with vin v (rows df)))%nat).
    { rewrite <- (Permutation_length (proj1 (vin_claims_sorted v df))). exact Hin. }
    lia.
  - destruct (has_column "Selling Dealer" df); [| intros r []].
    intros r. rewrite !filter_In, !isin_In. intros [Hr [v [Hv' Hin]]].
    split; [exact Hr |]. exists v. split; [exact Hv' |].
    apply high_claim_vins_In. split; [now apply rows_with_nonempty with r |].
    apply multi_dealer_vins_In in Hin.
    assert (Hlen : (1 < List.length (rows_with vin v (rows df)))%nat).
    { pose proof (nunique_length (map selling_dealer (rows_with vin v (rows df))))
        as H.
      rewrite length_map in H. exact (Nat.lt_le_trans _ _ _ Hin H). }
    lia.
Qed.

(** X5.  Raising the count threshold of [detect_high_claims_per_dealer], the
    multiplier staying the same, only takes dealers and claims away. *)
Theorem high_claims_per_dealer_antitone (df : DataFrame) (ct1 ct2 : Z) (m : Q) :
  (ct1 <= ct2)%Z ->
  incl (high_risk_dealers ct2 m df) (high_risk_dealers ct1 m df) /\
  incl (rows (high_risk_dealer_claims ct2 m df))
       (rows (high_risk_dealer_claims ct1 m df)).
Proof.
  intros Hc.
  assert (H : incl (high_risk_dealers ct2 m df) (high_risk_dealers ct1 m df)).
  { unfold high_risk_dealers. intros st. rewrite !filter_In. intros [Hst Hf].
    split; [exact Hst |]. apply orb_true_iff in Hf as [Hf | Hf]; apply orb_true_iff.
    - left. apply Z.leb_le in Hf. apply Z.leb_le. lia.
    - now right. }
  split; [exact H |]. unfold high_risk_dealer_claims. cbn [rows select].
  intros r. rewrite !filter_In, !isin_In. intros [Hr [v [Hv Hin]]].
  split; [exact Hr |]. exists v. split; [exact Hv |].
  apply in_map_iff in Hin as [st [E Hst]]. apply in_map_iff. exists st.
  split; [exact E | now apply H].
Qed.

(* ================================================================= *)
(** ** More on the high dollar detector *)

Lemma filter_above_nan (l : list Claim) :
  filter (fun r => fgt (paid_amount r) None) l = [].
Proof.
  assert (H : forall x, fgt x None = false) by (intros [x|]; reflexivity).
  induction l as [|r l IH]; [reflexivity |].
  cbn [filter]. rewrite H. exact IH.
Qed.

(** X6.  A table with fewer than two paid amounts has no standard deviation:
    the threshold is NaN, no claim is above it and the detector returns
    an empty finding, whatever the multiplier. *)
Theorem high_dollar_needs_two_amounts (s : RiskDetector) (df : DataFrame) (k : Q) :
  data s = Some df -> has_column "Paid Amount" df = true ->
  (count (map paid_amount (rows df)) <= 1)%nat ->
  dollar_threshold k df = None /\
  detect_high_dollar_claims k s = (Ok empty_frame, s).
Proof.
  intros Hd Hc Hn.
  assert (Hth : dollar_threshold k df = None).
  { unfold dollar_threshold, std. unfold count in Hn.
    destruct (mean (map paid_amount (rows df))) as [m|]; [| reflexivity].
    apply Nat.leb_le in Hn. rewrite Hn. reflexivity. }
  split; [exact Hth |].
  unfold detect_high_dollar_claims.
  rewrite (bind_ok _ _ _ _ _ (get_data_loaded s df Hd)).
  rewrite (bind_ok (require ["Paid Amount"] df) _ s s tt)
    by (now rewrite require_one, Hc).
  cbv zeta. rewrite Hth.
  replace (select (fun r => fgt (paid_amount r) None) df)
    with (mkFrame (columns df) (@nil Claim)).
  - reflexivity.
  - unfold select. f_equal. symmetry. apply filter_above_nan.
Qed.




Section HighDollarBounds.

Hypothesis sqrt_nonneg : forall x, (0 <= x)%Q -> (0 <= sqrt x)%Q.



End HighDollarBounds.

(* ================================================================= *)
(** ** Brands *)



(** A prefix without separator, followed by the separator, is the first
    piece. *)
Lemma split_prefix (sep : ascii) (a t : string) :
  occurs sep a = false ->
  split sep (a ++ String sep t)%string = a :: split sep t.
Proof.
  induction a as [|c a IH]; simpl; intros H.
  - now rewrite Ascii.eqb_refl.
  - apply orb_false_iff in H as [Hc Ha]. rewrite Hc, (IH Ha). reflexivity.
Qed.

Lemma split_whole (sep : ascii) (a : string) :
  occurs sep a = false -> split sep a = [a].
Proof.
  induction a as [|c a IH]; simpl; intros H; [reflexivity |].
  apply orb_false_iff in H as [Hc Ha]. rewrite Hc, (IH Ha). reflexivity.
Qed.

(** X8.  The brand is the text between the first and the second blank of the
    vehicle: the second word when single blanks separate the words.  A
    vehicle without blank has no brand. *)
Theorem extract_brand_second_word (a b rest : string) :
  occurs " "%char a = false -> occurs " "%char b = false ->
  extract_brand (Some (a ++ String " "%char b)%string) = Some b /\
  extract_brand (Some (a ++ String " "%char (b ++ String " "%char rest))%string)
  = Some b /\
  extract_brand (Some a) = None.
Proof.
  intros Ha Hb. unfold extract_brand. split; [| split].
  - rewrite (split_prefix _ _ _ Ha), (split_whole _ _ Hb). reflexivity.
  - rewrite (split_prefix _ _ _ Ha), (split_prefix _ _ _ Hb). reflexivity.
  - rewrite (split_whole _ _ Ha). reflexivity.
Qed.




(* ================================================================= *)
(** ** Totals over groups *)













Lemma sorted_by_nth {A} (le : A -> A -> bool) (l : list A) :
  sorted_by le l ->
  forall i j a b,
    (i < j)%nat -> nth_error l i = Some a -> nth_error l j = Some b ->
    le a b = true.
Proof.
  induction l as [|x l IH]; intros Hs i j a b Hij Hi Hj.
  - destruct i; discriminate.
  - destruct Hs as [Hx Hl]. destruct j as [|j]; [lia |]. simpl in Hj.
    destruct i as [|i]; simpl in Hi.
    + inversion Hi; subst. apply Hx. now apply nth_error_In with j.
    + apply (IH Hl i j); [lia | assumption..].
Qed.

Lemma sort_total_paid_desc_sorted (l : list GroupStats.t) :
  sorted_by (fun a b => Qle_bool (GroupStats.total_paid b) (GroupStats.total_paid a))
    (sort_total_paid_desc l).
Proof.
  unfold sort_total_paid_desc. apply sort_by_sorted.
  - intros x y.
    destruct (Qlt_le_dec (GroupStats.total_paid x) (GroupStats.total_paid y)) as [H | H].
    + right. apply Qle_bool_iff. now apply Qlt_le_weak.
    + left. now apply Qle_bool_iff.
  - intros x y z. rewrite !Qle_bool_iff. intros H1 H2. now apply Qle_trans with
      (GroupStats.total_paid y).
Qed.

(** X12.  The coverage statistics and the luxury statistics come by descending
    total: a row never has a smaller total than a row after it. *)
Theorem stats_by_descending_total (df : DataFrame) (i j : nat) :
  (i < j)%nat ->
  (forall a b, nth_error (coverage_stats df) i = Some a ->
               nth_error (coverage_stats df) j = Some b ->
               (GroupStats.total_paid b <= GroupStats.total_paid a)%Q) /\
  (forall a b, nth_error (luxury_stats df) i = Some a ->
               nth_error (luxury_stats df) j = Some b ->
               (GroupStats.total_paid b <= GroupStats.total_paid a)%Q).
Proof.
  intros Hij. split; intros a b Hi Hj; apply Qle_bool_iff.
  - exact (sorted_by_nth _ _ (sort_total_paid_desc_sorted _) i j a b Hij Hi Hj).
  - exact (sorted_by_nth _ _ (sort_total_paid_desc_sorted _) i j a b Hij Hi Hj).
Qed.

(* ================================================================= *)
(** ** A complete run *)












(** As many distinct keys as groups. *)
Lemma nunique_groups (key : Claim -> option string) (l : list Claim) :
  nunique (map key l) = List.length (groupby key l).
Proof.
  unfold nunique. rewrite <- (length_map fst (groupby key l)).
  apply Permutation_length, NoDup_Permutation.
  - apply distinct_NoDup.
  - apply groupby_NoDup.
  - intros k. rewrite distinct_In, dropna_values_In, groupby_key_In, in_map_iff.
    split; intros [r [H1 H2]]; exists r; split; assumption.
Qed.

Lemma vin_pattern_keys (name : string) (found : option DataFrame) (s : RiskDetector) :
  (forall f, found = Some f -> has_column "VIN" f = true) ->
  exists l, vin_pattern name found s = (Ok l, s) /\
            map fst l = if isnull found then [] else [name].
Proof.
  intros H. destruct found as [f|]; cbn [vin_pattern isnull].
  - rewrite (bind_ok _ _ _ _ _ (getitem_present VIN f s (H f eq_refl))).
    eexists. split; reflexivity.
  - exists []. split; reflexivity.
Qed.

Lemma dollar_pattern_keys (found : option DataFrame) (s : RiskDetector) :
  (forall f, found = Some f -> has_column "Paid Amount" f = true) ->
  exists l, dollar_pattern found s = (Ok l, s) /\
            map fst l = if isnull found then [] else ["high_dollar_claims"].
Proof.
  intros H. destruct found as [f|]; cbn [dollar_pattern isnull].
  - rewrite (bind_ok _ _ _ _ _ (getitem_present PaidAmount f s (H f eq_refl))).
    eexists. split; reflexivity.
  - exists []. split; reflexivity.
Qed.

Lemma summary_report_ready (s : RiskDetector) (df : DataFrame) :
  ready df s ->
  has_column "Paid Amount" df = true -> has_column "VIN" df = true ->
  has_column "Selling Dealer" df = true ->
  exists sm,
    generate_summary_report s = (Ok sm, s) /\
    Summary.total_claims sm = List.length (rows df) /\
    Summary.unique_vins sm = List.length (vin_counts df) /\
    Summary.unique_dealers sm = List.length (dealer_stats df) /\
    map fst (Summary.risk_patterns sm) = present_keys (results s).
Proof.
  intros [Hd (H1 & H2 & H3 & H4)] Hc1 Hc2 Hc3. unfold generate_summary_report.
  rewrite (bind_ok _ _ _ _ _ (get_data_loaded s df Hd)).
  rewrite (bind_ok _ _ _ _ _ (getitem_present PaidAmount df s Hc1)).
  rewrite (bind_ok _ _ _ _ _ (getitem_present VIN df s Hc2)).
  rewrite (bind_ok _ _ _ _ _ (getitem_present SellingDealer df s Hc3)).
  rewrite (bind_ok get_results _ s s (results s)) by reflexivity.
  destruct (vin_pattern_keys "multiple_claims_per_vin" _ s H1) as [p1 [E1 K1]].
  destruct (dollar_pattern_keys _ s H2) as [p2 [E2 K2]].
  destruct (vin_pattern_keys "multiple_dealers_per_vin" _ s H3) as [p3 [E3 K3]].
  destruct (vin_pattern_keys "repeated_claims_timeframe" _ s H4) as [p4 [E4 K4]].
  rewrite (bind_ok _ _ _ _ _ E1), (bind_ok _ _ _ _ _ E2), (bind_ok _ _ _ _ _ E3),
    (bind_ok _ _ _ _ _ E4).
  eexists. split; [reflexivity |]. cbn [Summary.total_claims Summary.unique_vins
    Summary.unique_dealers Summary.risk_patterns col_get VIN SellingDealer].
  split; [reflexivity |].
  split; [unfold vin_counts; rewrite length_map; apply nunique_groups |].
  split; [unfold dealer_stats; rewrite length_map; apply nunique_groups |].
  unfold present_keys. rewrite !map_app, K1, K2, K3, K4.
  repeat f_equal.
  - now destruct (high_claims_per_dealer (results s)) as [[? ?]|].
  - now destruct (luxury_vehicle_patterns (results s)) as [[? ?]|].
  - now destruct (coverage_type_patterns (results s)).
Qed.

(** X13.  On a loaded table with the [Paid Amount], [VIN] and [Selling Dealer]
    columns and findings in order, [generate_summary_report] returns and
    leaves the detector as it is.  It counts the rows of the table, as
    many VINs as the table has VIN groups and as many dealers as it has
    dealer groups, and it has one section for each key of [self.results],
    in the order of the detectors, and none for an absent key. *)
Theorem summary_report_sections (s : RiskDetector) (df : DataFrame) :
  ready df s ->
  has_column "Paid Amount" df = true -> has_column "VIN" df = true ->
  has_column "Selling Dealer" df = true ->
  exists sm,
    generate_summary_report s = (Ok sm, s) /\
    Summary.total_claims sm = List.length (rows df) /\
    Summary.unique_vins sm = List.length (vin_counts df) /\
    Summary.unique_dealers sm = List.length (dealer_stats df) /\
    map fst (Summary.risk_patterns sm) = present_keys (results s).
Proof.
  apply summary_report_ready.
Qed.

Lemma has_schema_assign_brand (df : DataFrame) :
  has_schema df = true -> has_schema (assign_brand df) = true.
Proof.
  intros H. destruct (has_schema_columns df H) as (A & B & C & D & E & F & G & I).
  unfold has_schema, schema. cbn [forallb].
  now rewrite !has_column_assign_brand.
Qed.



(* ================================================================= *)
(** ** Findings stay *)

Ltac keys_incl :=
  intros s; unfold present_keys, update_results;
  cbn [snd results multiple_claims_per_vin high_dollar_claims
       multiple_dealers_per_vin repeated_claims_timeframe high_claims_per_dealer
       luxury_vehicle_patterns coverage_type_patterns
       store_multiple_claims_per_vin store_high_dollar_claims
       store_multiple_dealers_per_vin store_repeated_claims_timeframe
       store_high_claims_per_dealer store_luxury_vehicle_patterns
       store_coverage_type_patterns];
  repeat apply incl_app_app; try apply incl_refl;
  match goal with
  | |- incl (if isnull ?x then _ else _) _ =>
      destruct x; [apply incl_refl | apply incl_nil_l]
  end.

Lemma findings_ret {A} (a : A) : keeps_findings (ret a).
Proof. intros s. apply incl_refl. Qed.

Lemma findings_raise {A} (e : Exn) : keeps_findings (@raise A e).
Proof. intros s. apply incl_refl. Qed.

Lemma findings_get_data : keeps_findings get_data.
Proof. intros s. unfold get_data. destruct (data s); apply incl_refl. Qed.

Lemma findings_set_data (df : DataFrame) : keeps_findings (set_data df).
Proof. intros s. apply incl_refl. Qed.

Lemma findings_get_results : keeps_findings get_results.
Proof. intros s. apply incl_refl. Qed.

Lemma findings_require (cs : list string) (df : DataFrame) :
  keeps_findings (require cs df).
Proof.
  unfold require. destruct (missing_columns cs df);
    [apply findings_ret | apply findings_raise].
Qed.

Lemma findings_bind {A B} (m : M A) (k : A -> M B) :
  keeps_findings m -> (forall a, keeps_findings (k a)) -> keeps_findings (bind m k).
Proof.
  intros Hm Hk s. unfold bind. specialize (Hm s).
  destruct (m s) as [[a | e] s']; cbn [snd] in Hm.
  - eapply incl_tran; [exact Hm | apply Hk].
  - exact Hm.
Qed.

Lemma findings_getitem {T} (c : Column T) (df : DataFrame) :
  keeps_findings (getitem c df).
Proof.
  unfold getitem. apply findings_bind; [apply findings_require |].
  intros _. apply findings_ret.
Qed.

Lemma findings_store_multiple_claims (f : DataFrame) :
  keeps_findings (update_results (store_multiple_claims_per_vin f)).
Proof. keys_incl. Qed.

Lemma findings_store_high_dollar (f : DataFrame) :
  keeps_findings (update_results (store_high_dollar_claims f)).
Proof. keys_incl. Qed.

Lemma findings_store_multiple_dealers (f : DataFrame) :
  keeps_findings (update_results (store_multiple_dealers_per_vin f)).
Proof. keys_incl. Qed.

Lemma findings_store_repeated (f : DataFrame) :
  keeps_findings (update_results (store_repeated_claims_timeframe f)).
Proof. keys_incl. Qed.

Lemma findings_store_dealer (v : list DealerStats.t * DataFrame) :
  keeps_findings (update_results (store_high_claims_per_dealer v)).
Proof. keys_incl. Qed.

Lemma findings_store_luxury (v : list GroupStats.t * DataFrame) :
  keeps_findings (update_results (store_luxury_vehicle_patterns v)).
Proof. keys_incl. Qed.

Lemma findings_store_coverage (v : list GroupStats.t) :
  keeps_findings (update_results (store_coverage_type_patterns v)).
Proof. keys_incl. Qed.

Ltac findings :=
  repeat (cbv zeta;
          match goal with
          | |- keeps_findings (bind _ _) => apply findings_bind; [| intros ?]
          | |- keeps_findings (ret _) => apply findings_ret
          | |- keeps_findings (raise _) => apply findings_raise
          | |- keeps_findings get_data => apply findings_get_data
          | |- keeps_findings (set_data _) => apply findings_set_data
          | |- keeps_findings get_results => apply findings_get_results
          | |- keeps_findings (require _ _) => apply findings_require
          | |- keeps_findings (getitem _ _) => apply findings_getitem
          | |- keeps_findings (update_results (store_multiple_claims_per_vin _)) =>
              apply findings_store_multiple_claims
          | |- keeps_findings (update_results (store_high_dollar_claims _)) =>
              apply findings_store_high_dollar
          | |- keeps_findings (update_results (store_multiple_dealers_per_vin _)) =>
              apply findings_store_multiple_dealers
          | |- keeps_findings (update_results (store_repeated_claims_timeframe _)) =>
              apply findings_store_repeated
          | |- keeps_findings (update_results (store_high_claims_per_dealer _)) =>
              apply findings_store_dealer
          | |- keeps_findings (update_results (store_luxury_vehicle_patterns _)) =>
              apply findings_store_luxury
          | |- keeps_findings (update_results (store_coverage_type_patterns _)) =>
              apply findings_store_coverage
          | |- keeps_findings (if ?b then _ else _) => destruct b
          | |- keeps_findings (match ?x with _ => _ end) => destruct x
          end).

Lemma findings_multiple_claims (t : Z) :
  keeps_findings (detect_multiple_claims_per_vin t).
Proof. unfold detect_multiple_claims_per_vin. findings. Qed.

Lemma findings_high_dollar (k : Q) : keeps_findings (detect_high_dollar_claims k).
Proof. unfold detect_high_dollar_claims. findings. Qed.

Lemma findings_multiple_dealers : keeps_findings detect_multiple_dealers_per_vin.
Proof. unfold detect_multiple_dealers_per_vin. findings. Qed.

Lemma findings_repeated (d : Z) : keeps_findings (detect_repeated_claims_timeframe d).
Proof. unfold detect_repeated_claims_timeframe. findings. Qed.

Lemma findings_dealer (ct : Z) (m : Q) :
  keeps_findings (detect_high_claims_per_dealer ct m).
Proof. unfold detect_high_claims_per_dealer. findings. Qed.

Lemma findings_luxury : keeps_findings detect_luxury_vehicle_patterns.
Proof. unfold detect_luxury_vehicle_patterns. findings. Qed.

Lemma findings_coverage : keeps_findings detect_coverage_type_patterns.
Proof. unfold detect_coverage_type_patterns. findings. Qed.

Lemma findings_summary : keeps_findings generate_summary_report.
Proof. unfold generate_summary_report, vin_pattern, dollar_pattern. findings. Qed.

Lemma findings_load_data : keeps_findings load_data.
Proof.
  intros s. unfold load_data. destruct (read_excel (file_path s)); apply incl_refl.
Qed.

Lemma select_isin_nonempty (df : DataFrame) (vins : list (string * nat)) (v : string) :
  In v (map fst vins) -> rows_with vin v (rows df) <> [] ->
  filter (fun r => isin (vin r) (map fst vins)) (rows df) <> [].
Proof.
  intros Hv Hne E. destruct (rows_with vin v (rows df)) as [|r l] eqn:F; [congruence |].
  assert (Hr : In r (rows_with vin v (rows df))) by (rewrite F; now left).
  apply rows_with_In in Hr as [Hr Hk].
  assert (H : In r (filter (fun r => isin (vin r) (map fst vins)) (rows df))).
  { apply filter_In. split; [exact Hr |]. apply isin_In. now exists v. }
  rewrite E in H. contradiction.
Qed.

(** X15.  No method of the detector takes a key out of [self.results]: the
    detectors, the summary, [load_data] and a complete run only add keys
    or leave them.  A detector with a threshold that flags nothing writes
    nothing at all, so that a finding stored by an earlier call stays in
    [self.results], where the summary reads it. *)
Theorem findings_never_cleared (s : RiskDetector) (t d ct : Z) (k m : Q) :
  (keeps_findings (detect_multiple_claims_per_vin t) /\
   keeps_findings (detect_high_dollar_claims k) /\
   keeps_findings detect_multiple_dealers_per_vin /\
   keeps_findings (detect_repeated_claims_timeframe d) /\
   keeps_findings (detect_high_claims_per_dealer ct m) /\
   keeps_findings detect_luxury_vehicle_patterns /\
   keeps_findings detect_coverage_type_patterns /\
   keeps_findings generate_summary_report /\
   keeps_findings load_data /\
   keeps_findings run_all_detections) /\
  (returned_rows (fst (detect_multiple_claims_per_vin t s)) = [] ->
   snd (detect_multiple_claims_per_vin t s) = s) /\
  (returned_rows (fst (detect_high_dollar_claims k s)) = [] ->
   snd (detect_high_dollar_claims k s) = s) /\
  (returned_rows (fst (detect_multiple_dealers_per_vin s)) = [] ->
   snd (detect_multiple_dealers_per_vin s) = s) /\
  (returned_rows (fst (detect_repeated_claims_timeframe d s)) = [] ->
   snd (detect_repeated_claims_timeframe d s) = s) /\
  (fst (detect_high_claims_per_dealer ct m s) = Ok [] ->
   snd (detect_high_claims_per_dealer ct m s) = s).
Proof using read_excel sqrt to_datetime to_numeric.
  split; [| split; [| split; [| split; [| split]]]].
  - repeat split;
      [ apply findings_multiple_claims | apply findings_high_dollar
      | apply findings_multiple_dealers | apply findings_repeated
      | apply findings_dealer | apply findings_luxury | apply findings_coverage
      | apply findings_summary | apply findings_load_data |].
    unfold run_all_detections. apply findings_bind.
    + intros s0. destruct (data s0); [apply incl_refl | apply findings_load_data].
    + intros _. repeat (apply findings_bind; [| intros _]);
        [ apply findings_multiple_claims | apply findings_high_dollar
        | apply findings_multiple_dealers | apply findings_repeated
        | apply findings_dealer | apply findings_luxury | apply findings_coverage
        | apply findings_summary ].
  - unfold detect_multiple_claims_per_vin. run_method.
    destruct (data s) as [df|]; [| reflexivity]. cbn.
    destruct (has_column "VIN" df); [| reflexivity]. cbn.
    destruct (high_claim_vins t df) as [|[v n] l] eqn:E; [reflexivity |]. cbn.
    intros H. exfalso. apply (select_isin_nonempty df ((v, n) :: l) v); [now left | | exact H].
    assert (Hv : In v (map fst (high_claim_vins t df))) by (rewrite E; now left).
    now apply high_claim_vins_In in Hv.
  - unfold detect_high_dollar_claims. run_method.
    destruct (data s) as [df|]; [| reflexivity]. cbn.
    destruct (has_column "Paid Amount" df); [| reflexivity]. cbn.
    destruct (filter _ (rows df)) as [|c l] eqn:E; [reflexivity |]. cbn.
    intros H. exfalso.
    assert (X : c :: l = []) by exact (eq_trans (eq_sym E) H). discriminate X.
  - unfold detect_multiple_dealers_per_vin. run_method.
    destruct (data s) as [df|]; [| reflexivity]. cbn.
    destruct (has_column "VIN" df); [| reflexivity]. cbn.
    destruct (has_column "Selling Dealer" df); [| reflexivity]. cbn.
    destruct (multi_dealer_vins df) as [|[v n] l] eqn:E; [reflexivity |]. cbn.
    intros H. exfalso. apply (select_isin_nonempty df ((v, n) :: l) v); [now left | | exact H].
    assert (Hv : In v (map fst (multi_dealer_vins df))) by (rewrite E; now left).
    apply multi_dealer_vins_In in Hv. intros F. rewrite F in Hv. cbn in Hv. lia.
  - unfold detect_repeated_claims_timeframe. run_method.
    destruct (data s) as [df|]; [| reflexivity]. cbn.
    destruct (has_column "VIN" df); [| reflexivity]. cbn.
    destruct (multi_claim_vins df) as [|v0 l0] eqn:Em; [reflexivity |]. cbn.
    destruct (has_column "RO Date" df); [| reflexivity]. cbn.
    destruct (rapid_claim_vins d df) as [|v l] eqn:E; [reflexivity |]. cbn.
    intros H. exfalso.
    assert (Hv : In v (rapid_claim_vins d df)) by (rewrite E; now left).
    unfold rapid_claim_vins in Hv. apply filter_In in Hv as [Hv _].
    apply multi_claim_vins_In in Hv.
    assert (Hr : exists r, In r (rows df) /\ vin r = Some v).
    { destruct (rows_with vin v (rows df)) as [|r l'] eqn:F; [cbn in Hv; lia |].
      exists r. apply rows_with_In. rewrite F. now left. }
    destruct Hr as [r [Hr Hk]].
    assert (Hin : In r (filter (fun r : Claim => isin (vin r) (v :: l)) (rows df))).
    { apply filter_In. split; [exact Hr |]. apply isin_In. exists v.
      split; [exact Hk | now left]. }
    rewrite H in Hin. contradiction.
  - unfold detect_high_claims_per_dealer. run_method.
    destruct (data s) as [df|]; [| reflexivity]. cbn.
    destruct (has_column "Selling Dealer" df); [| reflexivity]. cbn.
    destruct (has_column "Claim #" df), (has_column "Paid Amount" df);
      cbn; try reflexivity.
    destruct (high_risk_dealers ct m df) as [|x l] eqn:E; [reflexivity |]. cbn.
    intros H. exfalso.
    assert (X : Ok (x :: l) = Ok (@nil DealerStats.t))
      by (first [exact H | rewrite <- E; exact H]).
    discriminate X.
Qed.

(* ================================================================= *)
(** ** The luxury detector reads its columns late *)





(* ================================================================= *)
(** ** From the file *)



(** X18.  A file that cannot be read ends the program: [load_data] and, on a
    detector without a table, [run_all_detections] raise [SystemExit] and
    write nothing, and so does [detect_high_risk.main] on arguments that
    name the file. *)
Theorem unreadable_file_exits (s : RiskDetector) :
  read_excel (file_path s) = None ->
  load_data s = (Raise SystemExit, s) /\
  (data s = None -> run_all_detections s = (Raise SystemExit, s)) /\
  (forall argv d, parse_detect_args argv = Some d ->
                  DetectArgs.file d = file_path s ->
                  detect_main argv = Raise SystemExit).
Proof using read_excel sqrt to_datetime to_numeric parse_detect_args.
  intros Hread.
  assert (Hload : load_data s = (Raise SystemExit, s)).
  { unfold load_data. now rewrite Hread. }
  split; [exact Hload |]. split.
  - intros Hd. unfold run_all_detections. apply bind_raise. now rewrite Hd.
  - intros argv d Hp Hf. unfold detect_main. rewrite Hp, Hf.
    assert (E : run_all_detections (init (file_path s))
                = (Raise SystemExit, init (file_path s))).
    { unfold run_all_detections. apply bind_raise. cbn [data init].
      unfold load_data. cbn [file_path init]. now rewrite Hread. }
    now rewrite E.
Qed.

(* ================================================================= *)
(** ** The command line *)




End Detector.

(* ================================================================= *)
(** ** The properties on the small table *)

Lemma sample_sqrt_nonneg (x : Q) : (0 <= x)%Q -> (0 <= sample_sqrt x)%Q.
Proof.
  intros _. unfold sample_sqrt, Qle. simpl. rewrite Z.mul_1_r. apply Z.sqrt_nonneg.
Qed.

(** VIN X has three claims and comes back whole; VIN A has one claim and
    the claim without VIN has none to count. *)
Example sample_multiple_claims :
  map claim_no (returned_rows (fst (detect_multiple_claims_per_vin 2 sample_detector)))
  = [Some "1"; Some "2"; Some "3"].
Proof. reflexivity. Qed.

(** With one standard deviation only the claim of 5000 is above the
    threshold. *)
Example sample_high_dollar :
  map claim_no
    (returned_rows (fst (detect_high_dollar_claims sample_sqrt 1 sample_detector)))
  = [Some "2"].
Proof. vm_compute. reflexivity. Qed.

(** The claims of VIN X are five days apart: flagged with a threshold of
    five days, not with four. *)
Example sample_repeated_claims :
  map claim_no
    (returned_rows (fst (detect_repeated_claims_timeframe 5 sample_detector)))
  = [Some "1"; Some "2"; Some "3"] /\
  returned_rows (fst (detect_repeated_claims_timeframe 4 sample_detector)) = [].
Proof. split; vm_compute; reflexivity. Qed.

(** The doubled blank makes the second piece of the vehicle empty. *)
Example sample_split : split " "%char "2019  AUDI A4" = ["2019"; ""; "AUDI"; "A4"].
Proof. reflexivity. Qed.

Example sample_run_all :
  fst (run_all_detections sample_to_datetime sample_to_numeric sample_read_excel
         sample_sqrt sample_detector)
  = Ok (Summary.mk 5 5450 (Some (5450 # 5)) (Some 5000) 2 3
          [("multiple_claims_per_vin",
            [("vins_flagged", IntV 1); ("claims_flagged", IntV 3)]);
           ("multiple_dealers_per_vin",
            [("vins_flagged", IntV 1); ("claims_flagged", IntV 3)]);
           ("repeated_claims_timeframe",
            [("vins_flagged", IntV 1); ("claims_flagged", IntV 3)]);
           ("high_claims_per_dealer",
            [("dealers_flagged", IntV 2); ("claims_flagged", IntV 4)]);
           ("luxury_vehicle_patterns",
            [("brands_flagged", IntV 2); ("claims_flagged", IntV 4)]);
           ("coverage_type_patterns", [("coverage_types", IntV 2)])]).
Proof. vm_compute. reflexivity. Qed.

(** A detector that has loaded nothing reads the sheet and cleans it. *)
Example sample_load :
  option_map (fun df => map paid_amount (rows df))
    (data (snd (load_data sample_to_datetime sample_to_numeric sample_read_excel
                  (init "claims.xlsx"))))
  = Some [Some 100%Q; Some 0%Q].
Proof. vm_compute. reflexivity. Qed.

Lemma multiple_claims_per_vin_exact_witness :
  data sample_detector = Some sample_table /\
  has_column "VIN" sample_table = true /\
  exists result s',
    detect_multiple_claims_per_vin 2 sample_detector = (Ok result, s') /\
    rows result
    = filter (fun r =>
                match vin r with
                | Some v =>
                    (2 <=? Z.of_nat (List.length (rows_with vin v (rows sample_table))))%Z
                | None => false
                end) (rows sample_table) /\
    (forall r, In r (rows result) <->
               In r (rows sample_table) /\
               exists v, vin r = Some v /\
                         (2 <= Z.of_nat (List.length
                                           (rows_with vin v (rows sample_table))))%Z).
Proof.
  split; [reflexivity |]. split; [reflexivity |].
  apply (multiple_claims_per_vin_exact sample_detector sample_table 2); reflexivity.
Defined.

Lemma null_vin_never_reported_witness :
  vin no_vin_claim = None /\
  (forall df g, In g (groupby vin (rows df)) -> ~ In no_vin_claim (snd g)) /\
  ~ In no_vin_claim
      (returned_rows (fst (detect_multiple_claims_per_vin 2 sample_detector))) /\
  ~ In no_vin_claim
      (returned_rows (fst (detect_multiple_dealers_per_vin sample_detector))) /\
  ~ In no_vin_claim
      (returned_rows (fst (detect_repeated_claims_timeframe 30 sample_detector))).
Proof.
  split; [reflexivity |].
  apply (null_vin_never_reported sample_detector 2 30 no_vin_claim). reflexivity.
Defined.

Lemma high_dollar_claims_antitone_witness :
  (1 <= 2)%Q /\
  incl (returned_rows (fst (detect_high_dollar_claims sample_sqrt 2 sample_detector)))
       (returned_rows (fst (detect_high_dollar_claims sample_sqrt 1 sample_detector))) /\
  (List.length
     (returned_rows (fst (detect_high_dollar_claims sample_sqrt 2 sample_detector)))
   <= List.length
        (returned_rows (fst (detect_high_dollar_claims sample_sqrt 1 sample_detector))))%nat.
Proof.
  assert (H : (1 <= 2)%Q) by (unfold Qle; simpl; lia).
  split; [exact H |].
  apply (high_dollar_claims_antitone sample_sqrt sample_sqrt_nonneg sample_detector 1 2 H).
Defined.


Lemma repeated_claims_timeframe_iff_witness :
  data sample_detector = Some sample_table /\
  has_column "VIN" sample_table = true /\
  has_column "RO Date" sample_table = true /\
  exists result s',
    detect_repeated_claims_timeframe 30 sample_detector = (Ok result, s') /\
    (forall v,
       Permutation (vin_claims v sample_table) (rows_with vin v (rows sample_table)) /\
       sorted_by (fun a b => date_le (ro_date a) (ro_date b))
         (vin_claims v sample_table)) /\
    (forall v, In v (rapid_claim_vins 30 sample_table) <->
               near_pair 30 (map ro_date (vin_claims v sample_table))) /\
    (forall v i j a b,
       (i < j)%nat ->
       nth_error (map ro_date (vin_claims v sample_table)) i = Some (Some a) ->
       nth_error (map ro_date (vin_claims v sample_table)) j = Some (Some b) ->
       ((b - a) / ns_per_day <= 30)%Z ->
       In v (rapid_claim_vins 30 sample_table)) /\
    (forall r, In r (rows result) <->
               In r (rows sample_table) /\
               exists v, vin r = Some v /\ In v (rapid_claim_vins 30 sample_table)).
Proof.
  split; [reflexivity |]. split; [reflexivity |]. split; [reflexivity |].
  apply (repeated_claims_timeframe_iff sample_detector sample_table 30);
    reflexivity.
Defined.



Lemma empty_table_empty_findings_witness :
  data empty_detector = Some empty_table /\ rows empty_table = [] /\
  has_schema empty_table = true /\ results empty_detector = no_results /\
  fst (detect_multiple_claims_per_vin 2 empty_detector) = Ok empty_frame /\
  fst (detect_high_dollar_claims sample_sqrt 2 empty_detector) = Ok empty_frame /\
  fst (detect_multiple_dealers_per_vin empty_detector) = Ok empty_frame /\
  fst (detect_repeated_claims_timeframe 30 empty_detector) = Ok empty_frame /\
  fst (detect_high_claims_per_dealer 3 (3 # 2) empty_detector) = Ok [] /\
  fst (detect_luxury_vehicle_patterns empty_detector) = Ok [] /\
  fst (detect_coverage_type_patterns empty_detector) = Ok [] /\
  fst (generate_summary_report empty_detector)
  = Ok (Summary.mk 0 0 None None 0 0 []) /\
  fst (run_all_detections sample_to_datetime sample_to_numeric sample_read_excel
         sample_sqrt empty_detector)
  = Ok (Summary.mk 0 0 None None 0 0
          [("coverage_type_patterns", [("coverage_types", IntV 0)])]).
Proof.
  split; [reflexivity |]. split; [reflexivity |]. split; [reflexivity |].
  split; [reflexivity |].
  apply (empty_table_empty_findings sample_to_datetime sample_to_numeric
           sample_read_excel sample_sqrt empty_detector empty_table 2 30 3 2 (3 # 2));
    reflexivity.
Defined.

Lemma missing_column_raises_key_error_witness :
  data bare_detector = Some empty_frame /\
  detect_multiple_claims_per_vin 2 bare_detector
  = (Raise (KeyError ["VIN"]), bare_detector) /\
  detect_multiple_dealers_per_vin bare_detector
  = (Raise (KeyError ["VIN"]), bare_detector) /\
  detect_repeated_claims_timeframe 30 bare_detector
  = (Raise (KeyError ["VIN"]), bare_detector) /\
  detect_high_dollar_claims sample_sqrt 2 bare_detector
  = (Raise (KeyError ["Paid Amount"]), bare_detector) /\
  detect_high_claims_per_dealer 3 (3 # 2) bare_detector
  = (Raise (KeyError ["Selling Dealer"]), bare_detector) /\
  detect_luxury_vehicle_patterns bare_detector
  = (Raise (KeyError ["Vehicle"]), bare_detector) /\
  detect_coverage_type_patterns bare_detector
  = (Raise (KeyError ["Coverage"]), bare_detector).
Proof.
  split; [reflexivity |].
  destruct (missing_column_raises_key_error sample_sqrt bare_detector empty_frame
              2 30 3 2 (3 # 2) eq_refl) as [Hvin [Hpaid [Hdealer [Hveh Hcov]]]].
  destruct (Hvin eq_refl) as [H1 [H2 H3]].
  split; [exact H1 |]. split; [exact H2 |]. split; [exact H3 |].
  split; [exact (Hpaid eq_refl) |]. split; [exact (Hdealer eq_refl) |].
  split; [exact (Hveh eq_refl) | exact (Hcov eq_refl)].
Defined.

(** A table without [RO Date] in which no VIN has two claims: the
    repeated-claims detector, which sorts by [RO Date], returns an empty
    finding and raises nothing. *)
Lemma repeated_claims_without_ro_date_returns :
  ~ (forall (s : RiskDetector) (df : DataFrame) (d : Z),
       data s = Some df -> has_column "RO Date" df = false ->
       exists e, fst (detect_repeated_claims_timeframe d s) = Raise e).
Proof.
  intros H.
  destruct (H undated_detector undated_table 30%Z eq_refl eq_refl) as [e He].
  vm_compute in He. discriminate He.
Qed.

(** The same detector on the same columns does read [RO Date] once a VIN
    has two claims. *)
Example repeated_claims_reads_ro_date :
  detect_repeated_claims_timeframe 30 undated_detector
  = (Ok empty_frame, undated_detector) /\
  detect_repeated_claims_timeframe 30 undated_repeat_detector
  = (Raise (KeyError ["RO Date"]), undated_repeat_detector).
Proof. split; reflexivity. Qed.


(** The cleaned sample: the row without any value is gone, the amount
    that does not parse is 0, the missing dealer is "Unknown", the date
    that does not parse is null. *)
Example sample_clean :
  map (fun c => (claim_no c, paid_amount c, selling_dealer c, ro_date c))
    (rows (_clean_data sample_to_datetime sample_to_numeric raw_sample))
  = [(Some "1", Some 100%Q, Some "D1", Some (day 1));
     (Some "2", Some 0%Q, Some "Unknown", None)].
Proof. vm_compute. reflexivity. Qed.


(* ================================================================= *)
(** ** Further properties on the small table *)

Lemma multiple_dealers_per_vin_exact_witness :
  data sample_detector = Some sample_table /\
  has_column "VIN" sample_table = true /\
  has_column "Selling Dealer" sample_table = true /\
  exists result s',
    detect_multiple_dealers_per_vin sample_detector = (Ok result, s') /\
    (forall r, In r (rows result) <->
       In r (rows sample_table) /\
       exists v, vin r = Some v /\
         exists r1 r2 a b,
           In r1 (rows sample_table) /\ In r2 (rows sample_table) /\
           vin r1 = Some v /\ vin r2 = Some v /\
           selling_dealer r1 = Some a /\ selling_dealer r2 = Some b /\ a <> b).
Proof.
  split; [reflexivity |]. split; [reflexivity |]. split; [reflexivity |].
  apply (multiple_dealers_per_vin_exact sample_detector sample_table); reflexivity.
Defined.

Lemma multiple_claims_per_vin_antitone_witness :
  (2 <= 4)%Z /\
  incl (returned_rows (fst (detect_multiple_claims_per_vin 4 sample_detector)))
       (returned_rows (fst (detect_multiple_claims_per_vin 2 sample_detector))).
Proof.
  split; [lia |].
  apply (multiple_claims_per_vin_antitone sample_detector 2 4). lia.
Defined.

Lemma repeated_claims_timeframe_monotone_witness :
  (5 <= 30)%Z /\
  incl (returned_rows (fst (detect_repeated_claims_timeframe 5 sample_detector)))
       (returned_rows (fst (detect_repeated_claims_timeframe 30 sample_detector))).
Proof.
  split; [lia |].
  apply (repeated_claims_timeframe_monotone sample_detector 5 30). lia.
Defined.

Lemma vin_findings_within_multiple_claims_witness :
  data sample_detector = Some sample_table /\
  has_column "VIN" sample_table = true /\
  (2 <= 2)%Z /\
  incl (returned_rows (fst (detect_repeated_claims_timeframe 30 sample_detector)))
       (returned_rows (fst (detect_multiple_claims_per_vin 2 sample_detector))) /\
  incl (returned_rows (fst (detect_multiple_dealers_per_vin sample_detector)))
       (returned_rows (fst (detect_multiple_claims_per_vin 2 sample_detector))).
Proof.
  split; [reflexivity |]. split; [reflexivity |]. split; [lia |].
  apply (vin_findings_within_multiple_claims sample_detector sample_table 2 30);
    [reflexivity | reflexivity | lia].
Defined.

Lemma high_claims_per_dealer_antitone_witness :
  (2 <= 3)%Z /\
  incl (high_risk_dealers 3 (3 # 2) sample_table)
       (high_risk_dealers 2 (3 # 2) sample_table) /\
  incl (rows (high_risk_dealer_claims 3 (3 # 2) sample_table))
       (rows (high_risk_dealer_claims 2 (3 # 2) sample_table)).
Proof.
  split; [lia |].
  apply (high_claims_per_dealer_antitone sample_table 2 3 (3 # 2)). lia.
Defined.

Lemma high_dollar_needs_two_amounts_witness :
  data single_claim_detector = Some single_claim_table /\
  has_column "Paid Amount" single_claim_table = true /\
  (count (map paid_amount (rows single_claim_table)) <= 1)%nat /\
  dollar_threshold sample_sqrt 2 single_claim_table = None /\
  detect_high_dollar_claims sample_sqrt 2 single_claim_detector
  = (Ok empty_frame, single_claim_detector).
Proof.
  assert (H : (count (map paid_amount (rows single_claim_table)) <= 1)%nat)
    by (vm_compute; lia).
  split; [reflexivity |]. split; [reflexivity |]. split; [exact H |].
  apply (high_dollar_needs_two_amounts sample_sqrt single_claim_detector
           single_claim_table 2); [reflexivity | reflexivity | exact H].
Defined.


Lemma extract_brand_second_word_witness :
  occurs " " "2020" = false /\
  occurs " " "BMW" = false /\
  extract_brand (Some "2020 BMW") = Some "BMW" /\
  extract_brand (Some "2020 BMW X5 xDrive") = Some "BMW" /\
  extract_brand (Some "2020") = None.
Proof.
  split; [reflexivity |]. split; [reflexivity |].
  apply (extract_brand_second_word "2020" "BMW" "X5 xDrive"); reflexivity.
Defined.



Lemma stats_by_descending_total_witness :
  (0 < 1)%nat /\
  (forall a b,
     nth_error (coverage_stats sample_table) 0 = Some a ->
     nth_error (coverage_stats sample_table) 1 = Some b ->
     (GroupStats.total_paid b <= GroupStats.total_paid a)%Q) /\
  (forall a b,
     nth_error (luxury_stats sample_table) 0 = Some a ->
     nth_error (luxury_stats sample_table) 1 = Some b ->
     (GroupStats.total_paid b <= GroupStats.total_paid a)%Q).
Proof.
  split; [lia |].
  apply (stats_by_descending_total sample_table 0 1). lia.
Defined.

Lemma sample_detector_ready : ready sample_table sample_detector.
Proof.
  split; [reflexivity |]. repeat split; intros f H; discriminate H.
Qed.

Lemma summary_report_sections_witness :
  ready sample_table sample_detector /\
  has_column "Paid Amount" sample_table = true /\
  has_column "VIN" sample_table = true /\
  has_column "Selling Dealer" sample_table = true /\
  exists sm,
    generate_summary_report sample_detector = (Ok sm, sample_detector) /\
    Summary.total_claims sm = List.length (rows sample_table) /\
    Summary.unique_vins sm = List.length (vin_counts sample_table) /\
    Summary.unique_dealers sm = List.length (dealer_stats sample_table) /\
    map fst (Summary.risk_patterns sm) = present_keys (results sample_detector).
Proof.
  split; [exact sample_detector_ready |].
  split; [reflexivity |]. split; [reflexivity |]. split; [reflexivity |].
  apply (summary_report_sections sample_detector sample_table);
    [exact sample_detector_ready | reflexivity | reflexivity | reflexivity].
Defined.




Lemma unreadable_file_exits_witness :
  sample_read_excel (file_path (init "missing.xlsx")) = None /\
  load_data sample_to_datetime sample_to_numeric sample_read_excel
    (init "missing.xlsx") = (Raise SystemExit, init "missing.xlsx") /\
  (data (init "missing.xlsx") = None ->
   run_all_detections sample_to_datetime sample_to_numeric sample_read_excel
     sample_sqrt (init "missing.xlsx") = (Raise SystemExit, init "missing.xlsx")) /\
  (forall argv d,
     sample_parse_detect_args argv = Some d ->
     DetectArgs.file d = file_path (init "missing.xlsx") ->
     detect_main sample_to_datetime sample_to_numeric sample_read_excel sample_sqrt
       sample_parse_detect_args argv = Raise SystemExit).
Proof.
  split; [reflexivity |].
  apply (unreadable_file_exits sample_to_datetime sample_to_numeric
           sample_read_excel sample_sqrt sample_parse_detect_args
           (init "missing.xlsx")).
  reflexivity.
Defined.


(** The command line of the example: the thresholds are in the
    environment, the earlier value of [VIN_THRESHOLD] is replaced, and the
    run is the one of the default thresholds. *)
Example sample_command_line :
  fst (run_risk_detection_main sample_to_datetime sample_to_numeric
         sample_read_excel sample_sqrt sample_str_int sample_str_float
         sample_parse_detect_args strict_args sample_env)
  = [("DEALER_AMOUNT_MULTIPLIER", "2.5"); ("DEALER_COUNT_THRESHOLD", "10");
     ("DAYS_THRESHOLD", "7"); ("DOLLAR_THRESHOLD", "3.0"); ("VIN_THRESHOLD", "5");
     ("HOME", "/root")] /\
  option_map fst
    (match snd (run_risk_detection_main sample_to_datetime sample_to_numeric
                  sample_read_excel sample_sqrt sample_str_int sample_str_float
                  sample_parse_detect_args strict_args sample_env) with
     | Ok v => Some v
     | Raise _ => None
     end)
  = match fst (run_all_detections sample_to_datetime sample_to_numeric
                 sample_read_excel sample_sqrt (init "claims.xlsx")) with
    | Ok sm => Some sm
    | Raise _ => None
    end.
Proof. split; vm_compute; reflexivity. Qed.
